(** * A multiplexed 4-digit 7-segment clock / voltmeter (main.cpp)

    Shallow embedding of the firmware sketch: the lookup tables, the tick
    handler, the bit-banged shift-register protocol, the display driver and
    the polling loop, followed by the properties of the specification and
    by further properties of the code, among them what the shift register
    on the other end of the lines receives.

    Conventions.
    - C++ [int] is a [Z] with the 32-bit two's-complement wrap-around written
      out ([int_wrap]); [uint8_t] is a [Z] reduced modulo 256 ([to_uint8]).
    - [/] and [%] on [int] truncate toward zero: [Z.quot] and [Z.rem].
    - The three [DigitalOut] lines and the calls to [ThisThread::sleep_for]
      are effects in the monad [IO]: a computation takes the current line
      levels ([Pins]) and returns the new levels together with the list of
      the operations it performed, oldest first.
    - The loops run a fixed number of times (8 bits, 4 digits); they are
      structural recursions on that count, the loop variable being computed
      from it.
    - Array indexing is [option]-valued: an index outside the table is
      undefined behaviour in the source and [None] here.
    - [float] is IEEE-754 binary32, computed with the executable
      specification of the Standard Library ([SpecFloat], precision 24,
      maximal exponent 128, round to nearest even). *)

From Stdlib Require Import ZArith List Bool Lia QArith Qabs.
From Stdlib Require Import Floats.SpecFloat.
Import ListNotations.

Open Scope Z_scope.

(** ** Machine integers *)

Definition INT_MIN : Z := - 2 ^ 31.
Definition INT_MAX : Z := 2 ^ 31 - 1.

(** Result of an [int] operation whose mathematical value is [z]. *)
Definition int_wrap (z : Z) : Z := (z + 2 ^ 31) mod 2 ^ 32 - 2 ^ 31.

(** [static_cast<uint8_t>(z)], also the implicit conversion on assignment
    to a [uint8_t]. *)
Definition to_uint8 (z : Z) : Z := z mod 256.

Definition in_int (z : Z) : Prop := INT_MIN <= z <= INT_MAX.

(** ** Lookup tables *)

(** [digitPattern]: segment masks for a common-anode display (0 = lit).  Each
    entry is the 8-bit truncation of the complement of the active-high
    pattern, as the source spells it. *)
Definition digitPattern : list Z :=
  [ to_uint8 (Z.lnot 0x3F);
    to_uint8 (Z.lnot 0x06);
    to_uint8 (Z.lnot 0x5B);
    to_uint8 (Z.lnot 0x4F);
    to_uint8 (Z.lnot 0x66);
    to_uint8 (Z.lnot 0x6D);
    to_uint8 (Z.lnot 0x7D);
    to_uint8 (Z.lnot 0x07);
    to_uint8 (Z.lnot 0x7F);
    to_uint8 (Z.lnot 0x6F) ].

(** [digitPos]: one-hot selector of the physical digit, leftmost first. *)
Definition digitPos : list Z := [ 0x01; 0x02; 0x04; 0x08 ].

(** [table[i]] for an [int] index: defined only inside the array. *)
Definition index (table : list Z) (i : Z) : option Z :=
  if i <? 0 then None else nth_error table (Z.to_nat i).

(** ** Time base *)

Record Time : Type := mkTime { seconds : Z; minutes : Z }.

Definition initialTime : Time := mkTime 0 0.

(** [updateTime], the ticker callback. *)
Definition updateTime (t : Time) : Time :=
  let seconds1 := int_wrap (seconds t + 1) in
  if seconds1 >=? 60 then
    let minutes1 := int_wrap (minutes t + 1) in
    if minutes1 >=? 100 then mkTime 0 0 else mkTime 0 minutes1
  else mkTime seconds1 (minutes t).

(** [seconds = minutes = 0], the action of button S1: the store to
    [minutes], then the store to [seconds]. *)
Definition clearMinutes (t : Time) : Time := mkTime (seconds t) 0.
Definition clearSeconds (t : Time) : Time := mkTime 0 (minutes t).
Definition resetTime (t : Time) : Time := clearSeconds (clearMinutes t).

(** [n] consecutive invocations of the callback. *)
Fixpoint ticks (n : nat) (t : Time) : Time :=
  match n with
  | O => t
  | S n' => ticks n' (updateTime t)
  end.

(** The operations that write the counters: the callback, the reset as a
    whole, and its two stores taken one at a time, between which the
    callback may run. *)
Inductive TimeOp : Type := Tick | Reset | ClearMinutes | ClearSeconds.

Definition applyOp (op : TimeOp) (t : Time) : Time :=
  match op with
  | Tick => updateTime t
  | Reset => resetTime t
  | ClearMinutes => clearMinutes t
  | ClearSeconds => clearSeconds t
  end.

Inductive reachable : Time -> Prop :=
| reach_init : reachable initialTime
| reach_step : forall t op, reachable t -> reachable (applyOp op t).

Definition time_inv (t : Time) : Prop :=
  0 <= seconds t < 60 /\ 0 <= minutes t < 100.

(** ** Output lines *)

Inductive Line : Type := LatchLine | ClockLine | DataLine.

(** What the program does to the outside world, in program order. *)
Inductive Event : Type :=
| SetLine (l : Line) (level : bool)
| SleepFor (ms : Z).

(** Levels of the three [DigitalOut] objects. *)
Record Pins : Type := mkPins { latchPin : bool; clockPin : bool; dataPin : bool }.

(** [main] drives all three lines low before entering the loop. *)
Definition initialPins : Pins := mkPins false false false.

(** Computations over the pins that log their events and may be undefined. *)
Definition IO (A : Type) : Type := Pins -> option (A * Pins * list Event).

Definition ret {A : Type} (a : A) : IO A := fun p => Some (a, p, []).

Definition bind {A B : Type} (m : IO A) (k : A -> IO B) : IO B :=
  fun p =>
    match m p with
    | None => None
    | Some (a, p1, es1) =>
        match k a p1 with
        | None => None
        | Some (b, p2, es2) => Some (b, p2, es1 ++ es2)
        end
    end.

Definition lift {A : Type} (o : option A) : IO A :=
  fun p => match o with Some a => Some (a, p, []) | None => None end.

Declare Scope io_scope.
Delimit Scope io_scope with io.
Notation "x <- m ;; k" := (bind m (fun x => k))
  (at level 61, m at next level, right associativity) : io_scope.
Notation "m ;; k" := (bind m (fun _ => k))
  (at level 61, right associativity) : io_scope.
Open Scope io_scope.

Definition setPin (l : Line) (level : bool) (p : Pins) : Pins :=
  match l with
  | LatchLine => mkPins level (clockPin p) (dataPin p)
  | ClockLine => mkPins (latchPin p) level (dataPin p)
  | DataLine => mkPins (latchPin p) (clockPin p) level
  end.

(** [pin = value] on a [DigitalOut]: the line goes high iff [value] is not 0. *)
Definition write (l : Line) (value : Z) : IO unit :=
  fun p =>
    let level := negb (value =? 0) in
    Some (tt, setPin l level p, [SetLine l level]).

(** [ThisThread::sleep_for(ms)]. *)
Definition sleep_for (ms : Z) : IO unit :=
  fun p => Some (tt, p, [SleepFor ms]).

Definition run {A : Type} (m : IO A) (p : Pins) : option (Pins * list Event) :=
  match m p with
  | Some (_, p', es) => Some (p', es)
  | None => None
  end.

(** ** Serial shifter *)

(** [(value & (1 << i)) ? 1 : 0]. *)
Definition bitOf (value i : Z) : Z :=
  if Z.land value (Z.shiftl 1 i) =? 0 then 0 else 1.

(** The body of the [for] loop of [shiftOutMSBFirst] for the loop variable
    going from [n - 1] down to [0]. *)
Fixpoint shiftBits (n : nat) (value : Z) : IO unit :=
  match n with
  | O => ret tt
  | S i =>
      write DataLine (bitOf value (Z.of_nat i)) ;;
      write ClockLine 1 ;;
      write ClockLine 0 ;;
      shiftBits i value
  end.

(** [shiftOutMSBFirst]: [for (int i = 7; i >= 0; i--)]. *)
Definition shiftOutMSBFirst (value : Z) : IO unit := shiftBits 8 value.

(** [writeToShiftRegister]. *)
Definition writeToShiftRegister (segments digit : Z) : IO unit :=
  write LatchLine 0 ;;
  shiftOutMSBFirst segments ;;
  shiftOutMSBFirst digit ;;
  write LatchLine 1.

(** ** Display driver *)

(** The initialiser of [digits[4]] in [displayNumber]. *)
Definition digitsOf (number : Z) : list Z :=
  [ Z.rem (Z.quot number 1000) 10;
    Z.rem (Z.quot number 100) 10;
    Z.rem (Z.quot number 10) 10;
    Z.rem number 10 ].

(** [segments &= ~0x80] on a [uint8_t]. *)
Definition clearDecimalPoint (segments : Z) : Z :=
  to_uint8 (Z.land segments (Z.lnot 0x80)).

(** The segment byte computed in iteration [i] of [displayNumber] for the
    digit value [d]. *)
Definition segmentsFor (d : Z) (showDecimalPoint : bool)
  (decimalPosition i : Z) : option Z :=
  match index digitPattern d with
  | None => None
  | Some segments =>
      if showDecimalPoint && (i =? decimalPosition)
      then Some (clearDecimalPoint segments)
      else Some segments
  end.

(** [n] iterations of the loop of [displayNumber] starting at index [i]. *)
Fixpoint displayDigits (n : nat) (i : Z) (digits : list Z)
  (showDecimalPoint : bool) (decimalPosition : Z) : IO unit :=
  match n with
  | O => ret tt
  | S n' =>
      d <- lift (index digits i) ;;
      segments <- lift (segmentsFor d showDecimalPoint decimalPosition i) ;;
      pos <- lift (index digitPos i) ;;
      writeToShiftRegister segments pos ;;
      sleep_for 2 ;;
      displayDigits n' (i + 1) digits showDecimalPoint decimalPosition
  end.

(** [displayNumber]: [for (int i = 0; i < 4; i++)]. *)
Definition displayNumber (number : Z) (showDecimalPoint : bool)
  (decimalPosition : Z) : IO unit :=
  displayDigits 4 0 (digitsOf number) showDecimalPoint decimalPosition.

(** The four segment bytes a call transmits, leftmost digit first. *)
Definition segmentBytes (number : Z) (showDecimalPoint : bool)
  (decimalPosition : Z) : list (option Z) :=
  map (fun '(i, d) => segmentsFor d showDecimalPoint decimalPosition i)
      (combine [0; 1; 2; 3] (digitsOf number)).

(** ** Single-precision arithmetic *)

Definition prec : Z := 24.
Definition emax : Z := 128.

Definition float : Type := spec_float.

(** Conversion of an [int] to [float] (round to nearest even). *)
Definition float_of_int (z : Z) : float := binary_normalize prec emax z 0 false.

Definition fdiv : float -> float -> float := SFdiv prec emax.
Definition fmul : float -> float -> float := SFmul prec emax.

(** The literal [65535.0f], exactly representable. *)
Definition lit_65535 : float := S754_finite false 16776960 (-8).

(** The literal [3.3f]: the binary32 number nearest to 3.3, bit pattern
    [0x40533333]. *)
Definition lit_3_3 : float := S754_finite false 13841203 (-22).

(** [(int) f]: truncation toward zero; undefined when the truncated value
    does not fit an [int] and for infinities and NaN. *)
Definition int_of_float (f : float) : option Z :=
  match f with
  | S754_zero _ => Some 0
  | S754_finite s m e =>
      let magnitude :=
        if e <? 0 then Z.pos m / 2 ^ (- e) else Z.pos m * 2 ^ e in
      let z := cond_Zopp s magnitude in
      if (INT_MIN <=? z) && (z <=? INT_MAX) then Some z else None
  | S754_infinity _ => None
  | S754_nan => None
  end.

(** The rational number a finite [float] denotes (0 for the others). *)
Definition float_value (f : float) : Q :=
  match f with
  | S754_finite s m e =>
      if e <? 0
      then Qmake (cond_Zopp s (Z.pos m)) (Z.to_pos (2 ^ (- e)))
      else Qmake (cond_Zopp s (Z.pos m) * 2 ^ e) 1
  | _ => 0%Q
  end.

(** ** Main loop *)

(** What one iteration of the loop reads: the levels of buttons S1 and S3
    (pulled up, so [true] when released) and the 16-bit analog sample. *)
Record Inputs : Type := mkInputs { s1 : bool; s3 : bool; read_u16 : Z }.

(** [potentiometer.read_u16() / 65535.0f * 3.3f]. *)
Definition voltageOf (sample : Z) : float :=
  fmul (fdiv (float_of_int sample) lit_65535) lit_3_3.

(** [(int)(voltage * 1000)]. *)
Definition voltageValue (voltage : float) : option Z :=
  int_of_float (fmul voltage (float_of_int 1000)).

(** [minutes * 100 + seconds]. *)
Definition timeValue (t : Time) : Z :=
  int_wrap (int_wrap (minutes t * 100) + seconds t).

(** The call of the display driver an iteration ends with. *)
Inductive DisplayCall : Type :=
| Display (number : Z) (showDecimalPoint : bool) (decimalPosition : Z).

(** The branch on button S3: which call of [displayNumber] is made. *)
Definition selectDisplay (inp : Inputs) (t : Time) : option DisplayCall :=
  if negb (s3 inp) then
    match voltageValue (voltageOf (read_u16 inp)) with
    | Some v => Some (Display v true 0)
    | None => None
    end
  else Some (Display (timeValue t) true 1).

Definition perform (c : DisplayCall) : IO unit :=
  match c with
  | Display number showDecimalPoint decimalPosition =>
      displayNumber number showDecimalPoint decimalPosition
  end.

(** The body of [while (1)]: the counters as the iteration finds them, and
    as it leaves them. *)
Definition loopBody (inp : Inputs) (t : Time) : IO Time :=
  t1 <- (if negb (s1 inp)
         then sleep_for 200 ;; ret (resetTime t)
         else ret t) ;;
  c <- lift (selectDisplay inp t1) ;;
  perform c ;;
  ret t1.

(** ** Reading an event log *)

(** The levels successively written to line [l]. *)
Fixpoint levelsOf (l : Line) (es : list Event) : list bool :=
  match es with
  | [] => []
  | SetLine l' v :: es' =>
      match l, l' with
      | LatchLine, LatchLine | ClockLine, ClockLine | DataLine, DataLine =>
          v :: levelsOf l es'
      | _, _ => levelsOf l es'
      end
  | SleepFor _ :: es' => levelsOf l es'
  end.

(** Number of low-to-high-to-low pulses in a sequence of levels written to a
    line that was low before. *)
Fixpoint pulses (levels : list bool) : nat :=
  match levels with
  | true :: false :: rest => S (pulses rest)
  | _ :: rest => pulses rest
  | [] => O
  end.

(** The byte a receiver assembles from bits that arrive most significant
    first. *)
Definition byteOfBits (bits : list bool) : Z :=
  fold_left (fun acc (b : bool) => 2 * acc + (if b then 1 else 0)) bits 0.

(** The events of transmitting one byte. *)
Definition byteEvents (value : Z) : list Event :=
  flat_map
    (fun i => [SetLine DataLine (Z.testbit value i);
               SetLine ClockLine true;
               SetLine ClockLine false])
    [7; 6; 5; 4; 3; 2; 1; 0].

(** ** The receiving end *)

(** The two cascaded 74HC595 registers behind the three lines, as the
    comments on the pin declarations describe them: a rising edge of the
    clock line (SH_CP) shifts the level of the data line (DS) in, a rising
    edge of the latch line (ST_CP) puts the last 16 bits shifted in on the
    outputs.  [shifted] holds every bit shifted in so far, oldest bit most
    significant; [shown] lists the 16-bit words put on the outputs, oldest
    first. *)
Record Receiver : Type :=
  mkReceiver { lines : Pins; shifted : Z; shown : list Z }.

Definition bitValue (b : bool) : Z := if b then 1 else 0.

Definition receive (r : Receiver) (e : Event) : Receiver :=
  match e with
  | SleepFor _ => r
  | SetLine l level =>
      let lines' := setPin l level (lines r) in
      match l with
      | ClockLine =>
          if negb (clockPin (lines r)) && level
          then mkReceiver lines' (2 * shifted r + bitValue (dataPin (lines r)))
                 (shown r)
          else mkReceiver lines' (shifted r) (shown r)
      | LatchLine =>
          if negb (latchPin (lines r)) && level
          then mkReceiver lines' (shifted r) (shown r ++ [shifted r mod 65536])
          else mkReceiver lines' (shifted r) (shown r)
      | DataLine => mkReceiver lines' (shifted r) (shown r)
      end
  end.

Definition receiveAll (es : list Event) (r : Receiver) : Receiver :=
  fold_left receive es r.

(** Index, counted from [i], of the first entry of [table] that agrees with
    [b] on the bits of [mask]. *)
Fixpoint lookupBack (table : list Z) (mask b i : Z) : option Z :=
  match table with
  | [] => None
  | entry :: rest =>
      if Z.land entry mask =? Z.land b mask then Some i
      else lookupBack rest mask b (i + 1)
  end.

(** The digit whose pattern of [digitPattern] the seven segment bits of [b]
    are, and the digit position a byte of [digitPos] selects. *)
Definition digitOfSegments (b : Z) : option Z := lookupBack digitPattern 0x7F b 0.
Definition positionOfSelect (b : Z) : option Z := lookupBack digitPos 0xFF b 0.

(** What a word on the outputs lights up: the position, the digit and
    whether the decimal point is on (bit 7 of the segment byte low). *)
Definition readWord (w : Z) : option (Z * Z * bool) :=
  match positionOfSelect (w mod 256), digitOfSegments (w / 256) with
  | Some i, Some d => Some (i, d, negb (Z.testbit (w / 256) 7))
  | _, _ => None
  end.

(** Total time slept in an event log, in milliseconds. *)
Fixpoint sleptMs (es : list Event) : Z :=
  match es with
  | [] => 0
  | SleepFor ms :: es' => ms + sleptMs es'
  | SetLine _ _ :: es' => sleptMs es'
  end.

(** ** The program as a whole *)

(** The three assignments that open [main]. *)
Definition initLines : IO unit :=
  write LatchLine 0 ;;
  write ClockLine 0 ;;
  write DataLine 0.

(** [minutes * 100 + seconds] when the two loads see [m] and [s]; the
    callback may run between them. *)
Definition timeValueOf (m s : Z) : Z := int_wrap (int_wrap (m * 100) + s).

(** One iteration of [while (1)] together with the invocations of the
    callback that fall into it: [ticksBefore] of them since the previous
    iteration read the counters, [ticksDuring] of them during the debounce
    delay that follows a reset. *)
Record Step : Type :=
  mkStep { ticksBefore : nat; ticksDuring : nat; inputs : Inputs }.

Definition loopStep (st : Step) (t : Time) : IO Time :=
  let t0 := ticks (ticksBefore st) t in
  t1 <- (if negb (s1 (inputs st))
         then sleep_for 200 ;; ret (ticks (ticksDuring st) (resetTime t0))
         else ret t0) ;;
  c <- lift (selectDisplay (inputs st) t1) ;;
  perform c ;;
  ret t1.

Fixpoint iterations (steps : list Step) (t : Time) : IO Time :=
  match steps with
  | [] => ret t
  | st :: rest => t1 <- loopStep st t ;; iterations rest t1
  end.

(** [main] up to the end of the iterations listed in [steps]. *)
Definition mainRun (steps : list Step) : IO Time :=
  initLines ;; iterations steps initialTime.

(** [timerTicker.attach(&updateTime, 10ms)]: the callback runs once every
    10 ms, so [ms / 10] times in [ms] milliseconds counted from an
    invocation. *)
Definition tickIntervalMs : Z := 10.
Definition ticksIn (ms : Z) : nat := Z.to_nat (ms / tickIntervalMs).

(** The counters an iteration reads for display, and leaves behind. *)
Definition stepTime (st : Step) (t : Time) : Time :=
  let t0 := ticks (ticksBefore st) t in
  if negb (s1 (inputs st))
  then ticks (ticksDuring st) (resetTime t0)
  else t0.

(** Time an iteration sleeps: four holds of 2 ms, and the debounce delay
    when S1 is pressed. *)
Definition stepSleep (st : Step) : Z :=
  8 + (if negb (s1 (inputs st)) then 200 else 0).

(** The digit positions the words on the outputs select, in order. *)
Definition positionsShown (ws : list Z) : list (option Z) :=
  map (fun w => positionOfSelect (w mod 256)) ws.

(** [P] holds of the [n] integers from [i] on. *)
Fixpoint allFrom (n : nat) (i : Z) (P : Z -> bool) : bool :=
  match n with
  | O => true
  | S n' => P i && allFrom n' (i + 1) P
  end.

(** * Properties *)

(** ** Machine integers *)

Lemma int_wrap_id (z : Z) : in_int z -> int_wrap z = z.
Proof.
  unfold in_int, INT_MIN, INT_MAX, int_wrap; intros H.
  rewrite Z.mod_small; lia.
Qed.

Lemma int_wrap_range (z : Z) : in_int (int_wrap z).
Proof.
  unfold in_int, INT_MIN, INT_MAX, int_wrap.
  pose proof (Z.mod_pos_bound (z + 2 ^ 31) (2 ^ 32) ltac:(lia)); lia.
Qed.

Lemma small_in_int (z : Z) : -10000 <= z <= 10000 -> in_int z.
Proof. unfold in_int, INT_MIN, INT_MAX; lia. Qed.

(** Unfolds one wrap whose argument is visibly small. *)
Ltac unwrap :=
  repeat match goal with
  | |- context [int_wrap ?z] =>
      rewrite (int_wrap_id z) by (apply small_in_int; simpl; lia)
  end.

(** ** Time base *)

Section TimeBase.

Variable t : Time.
Hypothesis Hinv : time_inv t.

Lemma updateTime_cases :
  updateTime t =
    if seconds t <? 59 then mkTime (seconds t + 1) (minutes t)
    else if minutes t <? 99 then mkTime 0 (minutes t + 1)
    else mkTime 0 0.
Proof.
  destruct Hinv as [Hs Hm]. unfold updateTime; cbv zeta. unwrap.
  destruct (Z.ltb_spec (seconds t) 59), (Z.geb_spec (seconds t + 1) 60);
    try lia; try reflexivity.
  destruct (Z.ltb_spec (minutes t) 99), (Z.geb_spec (minutes t + 1) 100);
    try lia; reflexivity.
Qed.

Lemma updateTime_inv : time_inv (updateTime t).
Proof.
  rewrite updateTime_cases. destruct Hinv as [Hs Hm]. unfold time_inv.
  destruct (Z.ltb_spec (seconds t) 59); [simpl; lia|].
  destruct (Z.ltb_spec (minutes t) 99); simpl; lia.
Qed.

(** The counters as one number of elapsed ticks. *)
Lemma updateTime_elapsed :
  minutes (updateTime t) * 60 + seconds (updateTime t)
  = (minutes t * 60 + seconds t + 1) mod 6000.
Proof.
  rewrite updateTime_cases. destruct Hinv as [Hs Hm].
  destruct (Z.ltb_spec (seconds t) 59).
  - simpl. rewrite Z.mod_small; lia.
  - destruct (Z.ltb_spec (minutes t) 99); simpl.
    + rewrite Z.mod_small; lia.
    + replace (minutes t * 60 + seconds t + 1) with 6000 by lia. reflexivity.
Qed.

End TimeBase.

Lemma ticks_inv (n : nat) : forall t, time_inv t -> time_inv (ticks n t).
Proof.
  induction n as [|n IH]; intros t Ht; simpl; [assumption|].
  apply IH, updateTime_inv, Ht.
Qed.

Lemma ticks_elapsed (n : nat) : forall t, time_inv t ->
  minutes (ticks n t) * 60 + seconds (ticks n t)
  = (minutes t * 60 + seconds t + Z.of_nat n) mod 6000.
Proof.
  induction n as [|n IH]; intros t Ht.
  - simpl. destruct Ht. rewrite Z.add_0_r, Z.mod_small; lia.
  - cbn [ticks]. rewrite IH by (apply updateTime_inv, Ht).
    rewrite updateTime_elapsed by exact Ht.
    rewrite Zplus_mod_idemp_l. f_equal. lia.
Qed.

(** A state that satisfies the invariant is determined by its number of
    elapsed ticks. *)
Lemma time_of_elapsed (t : Time) (k : Z) :
  time_inv t -> minutes t * 60 + seconds t = k ->
  t = mkTime (k mod 60) (k / 60).
Proof.
  intros [Hs Hm] Hk. destruct t as [s m]; simpl in *. subst k.
  f_equal.
  - rewrite Z.add_comm, Z.mod_add, Z.mod_small; lia.
  - rewrite Z.add_comm, Z.div_add, Z.div_small; lia.
Qed.

(** Closed form of [n] ticks from power-on. *)
Lemma ticks_closed_form (n : nat) :
  ticks n initialTime =
    mkTime (Z.of_nat n mod 6000 mod 60) (Z.of_nat n mod 6000 / 60).
Proof.
  assert (H0 : time_inv initialTime) by (unfold time_inv; simpl; lia).
  apply time_of_elapsed; [apply ticks_inv, H0|].
  rewrite ticks_elapsed by exact H0. reflexivity.
Qed.

(** C2. From (seconds, minutes) = (0, 0), 60 invocations of the tick handler
    give seconds = 0 and minutes = 1, and 6000 invocations give (0, 0) again;
    one invocation adds one to seconds, and when seconds reaches 60 it
    resets seconds and adds one to minutes, and when minutes reaches 100 it
    resets minutes. *)
Theorem updateTime_rollover :
  ticks 60 initialTime = mkTime 0 1 /\
  ticks (Z.to_nat 6000) initialTime = mkTime 0 0 /\
  forall t, in_int (seconds t + 1) -> in_int (minutes t + 1) ->
    (seconds t + 1 < 60 ->
       updateTime t = mkTime (seconds t + 1) (minutes t)) /\
    (seconds t + 1 >= 60 -> minutes t + 1 < 100 ->
       updateTime t = mkTime 0 (minutes t + 1)) /\
    (seconds t + 1 >= 60 -> minutes t + 1 >= 100 ->
       updateTime t = mkTime 0 0).
Proof.
  split; [|split].
  - rewrite ticks_closed_form. reflexivity.
  - rewrite ticks_closed_form. reflexivity.
  - intros t Hs Hm. unfold updateTime; cbv zeta.
    rewrite (int_wrap_id _ Hs), (int_wrap_id _ Hm).
    destruct (Z.geb_spec (seconds t + 1) 60), (Z.geb_spec (minutes t + 1) 100);
      repeat split; intros; try lia; reflexivity.
Qed.

Lemma updateTime_rollover_witness :
  in_int (seconds (mkTime 59 99) + 1) /\
  in_int (minutes (mkTime 59 99) + 1) /\
  updateTime (mkTime 59 99) = mkTime 0 0.
Proof.
  assert (Hs : in_int (seconds (mkTime 59 99) + 1))
    by (apply small_in_int; simpl; lia).
  assert (Hm : in_int (minutes (mkTime 59 99) + 1))
    by (apply small_in_int; simpl; lia).
  split; [exact Hs|split; [exact Hm|]].
  apply (proj2 (proj2 (proj2 (proj2 updateTime_rollover) _ Hs Hm)));
    simpl; lia.
Defined.

(** C6. The invariant seconds in [0,60) and minutes in [0,100) holds in the
    initial state (0,0) and is preserved by the tick handler and by the
    reset action, which zeroes both counters; hence it holds in every state
    reached through them, also when ticks fall between the two stores of a
    reset. *)
Theorem time_invariant :
  time_inv initialTime /\
  (forall t, time_inv t -> time_inv (updateTime t)) /\
  (forall t, time_inv t -> resetTime t = mkTime 0 0 /\ time_inv (resetTime t)) /\
  (forall t, reachable t -> time_inv t).
Proof.
  assert (H0 : time_inv initialTime) by (unfold time_inv; simpl; lia).
  assert (Hr : forall t, time_inv (resetTime t))
    by (intros; unfold time_inv; simpl; lia).
  split; [exact H0|].
  split; [intros t Ht; apply updateTime_inv, Ht|].
  split; [intros t _; split; [reflexivity | apply Hr]|].
  intros t H. induction H as [|t op _ IH]; [exact H0|].
  destruct op; simpl.
  - apply updateTime_inv, IH.
  - apply Hr.
  - destruct IH as [Hs _]. unfold time_inv; simpl; lia.
  - destruct IH as [_ Hm]. unfold time_inv; simpl; lia.
Qed.

Lemma time_invariant_witness :
  reachable (updateTime (resetTime (updateTime initialTime))) /\
  time_inv (updateTime (resetTime (updateTime initialTime))).
Proof.
  assert (H : reachable (updateTime (resetTime (updateTime initialTime)))).
  { apply (reach_step _ Tick), (reach_step _ Reset), (reach_step _ Tick).
    apply reach_init. }
  split; [exact H|].
  apply (proj2 (proj2 (proj2 time_invariant)) _ H).
Defined.

(** ** Digit decomposition *)

(** On non-negative numbers the truncating operators are the flooring ones. *)
Lemma digitsOf_nonneg (n : Z) : 0 <= n ->
  digitsOf n = [ (n / 1000) mod 10; (n / 100) mod 10; (n / 10) mod 10; n mod 10 ].
Proof.
  intros Hn. unfold digitsOf.
  rewrite !Z.quot_div_nonneg by lia.
  rewrite !Z.rem_mod_nonneg; try lia; try (apply Z.div_pos; lia).
  reflexivity.
Qed.

Lemma digit_of_mod (n k : Z) : 0 <= n -> k = 1 \/ k = 10 \/ k = 100 \/ k = 1000 ->
  (n mod 10000 / k) mod 10 = (n / k) mod 10.
Proof.
  intros Hn Hk.
  destruct Hk as [-> | [-> | [-> | ->]]];
    Z.to_euclidean_division_equations; lia.
Qed.

Lemma index_digitPattern (d : Z) : 0 <= d <= 9 ->
  index digitPattern d = Some (255 - nth (Z.to_nat d)
    [0x3F; 0x06; 0x5B; 0x4F; 0x66; 0x6D; 0x7D; 0x07; 0x7F; 0x6F] 0).
Proof.
  intros Hd.
  assert (H : d = 0 \/ d = 1 \/ d = 2 \/ d = 3 \/ d = 4 \/ d = 5 \/ d = 6
              \/ d = 7 \/ d = 8 \/ d = 9) by lia.
  repeat (destruct H as [->|H]; [reflexivity|]). subst d; reflexivity.
Qed.

(** C1. For every n in [0, 9999] displayNumber computes four digits
    d0 = (n/1000)%10, d1 = (n/100)%10, d2 = (n/10)%10, d3 = n%10, each in
    [0, 9], and they recompose to n: d0*1000 + d1*100 + d2*10 + d3 = n. *)
Theorem digitsOf_roundtrip (n : Z) :
  0 <= n <= 9999 ->
  exists d0 d1 d2 d3,
    digitsOf n = [d0; d1; d2; d3] /\
    d0 = Z.rem (Z.quot n 1000) 10 /\
    d1 = Z.rem (Z.quot n 100) 10 /\
    d2 = Z.rem (Z.quot n 10) 10 /\
    d3 = Z.rem n 10 /\
    0 <= d0 <= 9 /\ 0 <= d1 <= 9 /\ 0 <= d2 <= 9 /\ 0 <= d3 <= 9 /\
    d0 * 1000 + d1 * 100 + d2 * 10 + d3 = n.
Proof.
  intros Hn.
  exists (Z.rem (Z.quot n 1000) 10), (Z.rem (Z.quot n 100) 10),
    (Z.rem (Z.quot n 10) 10), (Z.rem n 10).
  split; [reflexivity|].
  repeat (split; [reflexivity|]).
  repeat split; Z.to_euclidean_division_equations; lia.
Qed.

Lemma digitsOf_roundtrip_witness :
  0 <= 9059 <= 9999 /\
  exists d0 d1 d2 d3,
    digitsOf 9059 = [d0; d1; d2; d3] /\
    d0 * 1000 + d1 * 100 + d2 * 10 + d3 = 9059.
Proof.
  assert (Hn : 0 <= 9059 <= 9999) by lia.
  split; [exact Hn|].
  destruct (digitsOf_roundtrip 9059 Hn)
    as (d0 & d1 & d2 & d3 & Hd & _ & _ & _ & _ & _ & _ & _ & _ & Hsum).
  exists d0, d1, d2, d3. split; [exact Hd | exact Hsum].
Defined.

(** The digits of a number above 9999 are those of its residue. *)
Lemma digitsOf_mod (n : Z) : 0 <= n -> digitsOf n = digitsOf (n mod 10000).
Proof.
  intros Hn. pose proof (Z.mod_pos_bound n 10000 ltac:(lia)) as Hm.
  rewrite (digitsOf_nonneg n), (digitsOf_nonneg (n mod 10000)) by lia.
  rewrite !digit_of_mod by lia.
  replace (n mod 10000 mod 10) with (n mod 10)
    by (Z.to_euclidean_division_equations; lia).
  reflexivity.
Qed.

(** ** Serial shifter *)

(** The mask test of the source reads bit [i] of the value. *)
Lemma land_bit (value i : Z) : 0 <= i ->
  Z.land value (Z.shiftl 1 i) = if Z.testbit value i then 2 ^ i else 0.
Proof.
  intros Hi. rewrite Z.shiftl_1_l.
  apply Z.bits_inj'; intros k Hk.
  rewrite Z.land_spec, Z.pow2_bits_eqb by exact Hi.
  destruct (Z.eqb_spec i k) as [->|Hne].
  - rewrite andb_true_r. destruct (Z.testbit value k) eqn:E.
    + rewrite Z.pow2_bits_true; [reflexivity|exact Hk].
    + rewrite Z.bits_0; reflexivity.
  - rewrite andb_false_r. destruct (Z.testbit value i).
    + rewrite Z.pow2_bits_false; [reflexivity|exact Hne].
    + rewrite Z.bits_0; reflexivity.
Qed.

Lemma bitOf_level (value i : Z) : 0 <= i ->
  negb (bitOf value i =? 0) = Z.testbit value i.
Proof.
  intros Hi. unfold bitOf. rewrite land_bit by exact Hi.
  destruct (Z.testbit value i); [|reflexivity].
  assert (H : 0 < 2 ^ i) by (apply Z.pow_pos_nonneg; lia).
  destruct (Z.eqb_spec (2 ^ i) 0); [lia|reflexivity].
Qed.

Lemma shiftOutMSBFirst_run (value : Z) (p : Pins) :
  shiftOutMSBFirst value p
  = Some (tt, mkPins (latchPin p) false (Z.testbit value 0), byteEvents value).
Proof.
  cbv [shiftOutMSBFirst shiftBits bind write ret setPin app
       latchPin clockPin dataPin Z.of_nat Pos.of_succ_nat Pos.succ].
  rewrite !bitOf_level by lia. reflexivity.
Qed.

Lemma bind_run {A B : Type} (m : IO A) (k : A -> IO B) (p p1 : Pins)
  (a : A) (es1 : list Event) :
  m p = Some (a, p1, es1) ->
  bind m k p = match k a p1 with
               | None => None
               | Some (b, p2, es2) => Some (b, p2, es1 ++ es2)
               end.
Proof. intros H. unfold bind. rewrite H. reflexivity. Qed.

Lemma writeToShiftRegister_run (segments digit : Z) (p : Pins) :
  writeToShiftRegister segments digit p
  = Some (tt, mkPins true false (Z.testbit digit 0),
          [SetLine LatchLine false] ++ byteEvents segments
            ++ byteEvents digit ++ [SetLine LatchLine true]).
Proof.
  unfold writeToShiftRegister.
  rewrite (bind_run _ _ p (setPin LatchLine false p) tt [SetLine LatchLine false])
    by reflexivity.
  rewrite (bind_run _ _ _ _ tt _ (shiftOutMSBFirst_run segments _)).
  rewrite (bind_run _ _ _ _ tt _ (shiftOutMSBFirst_run digit _)).
  reflexivity.
Qed.

(** Checking a decidable property of a byte on all 256 values. *)
Lemma byte_cases (P : Z -> bool) :
  forallb P (map Z.of_nat (seq 0 256)) = true ->
  forall v, 0 <= v < 256 -> P v = true.
Proof.
  intros H v Hv. rewrite forallb_forall in H. apply H.
  apply in_map_iff. exists (Z.to_nat v). split; [lia|].
  apply in_seq. lia.
Qed.

Lemma byteOfBits_msb_first (v : Z) : 0 <= v < 256 ->
  byteOfBits (map (Z.testbit v) [7; 6; 5; 4; 3; 2; 1; 0]) = v.
Proof.
  intros Hv. apply Z.eqb_eq.
  apply (byte_cases
           (fun v => byteOfBits (map (Z.testbit v) [7; 6; 5; 4; 3; 2; 1; 0]) =? v));
    [vm_compute; reflexivity | exact Hv].
Qed.

Lemma levelsOf_app (l : Line) (es1 es2 : list Event) :
  levelsOf l (es1 ++ es2) = levelsOf l es1 ++ levelsOf l es2.
Proof.
  induction es1 as [|[l' v|ms] es1 IH]; simpl; [reflexivity| |exact IH].
  destruct l, l'; simpl; rewrite IH; reflexivity.
Qed.

Lemma byteEvents_levels (value : Z) :
  levelsOf DataLine (byteEvents value)
    = map (Z.testbit value) [7; 6; 5; 4; 3; 2; 1; 0] /\
  levelsOf ClockLine (byteEvents value)
    = [true; false; true; false; true; false; true; false;
       true; false; true; false; true; false; true; false] /\
  levelsOf LatchLine (byteEvents value) = [].
Proof. repeat split. Qed.

(** C3. shiftOutMSBFirst sends a byte most significant bit first: the data
    line takes bit 7 down to bit 0 in turn, each followed by one pulse of the
    clock line high then low, 8 pulses in all; afterwards the data line holds
    bit 0 and the clock line is low.  For 0b10110000 the data line takes
    1,0,1,1,0,0,0,0. *)
Theorem shiftOutMSBFirst_spec :
  (forall value p, 0 <= value < 256 ->
     exists es,
       run (shiftOutMSBFirst value) p
         = Some (mkPins (latchPin p) false (Z.testbit value 0), es) /\
       es = flat_map
              (fun i => [SetLine DataLine (Z.testbit value i);
                         SetLine ClockLine true;
                         SetLine ClockLine false])
              [7; 6; 5; 4; 3; 2; 1; 0] /\
       levelsOf DataLine es = map (Z.testbit value) [7; 6; 5; 4; 3; 2; 1; 0] /\
       byteOfBits (levelsOf DataLine es) = value /\
       length (levelsOf ClockLine es) = 16%nat /\
       pulses (levelsOf ClockLine es) = 8%nat /\
       levelsOf LatchLine es = []) /\
  (exists p es,
     run (shiftOutMSBFirst 0xB0) initialPins = Some (p, es) /\
     levelsOf DataLine es
       = [true; false; true; true; false; false; false; false] /\
     pulses (levelsOf ClockLine es) = 8%nat /\
     dataPin p = false /\ clockPin p = false).
Proof.
  split.
  - intros value p Hv. exists (byteEvents value).
    unfold run. rewrite shiftOutMSBFirst_run.
    destruct (byteEvents_levels value) as (Hd & Hc & Hl).
    rewrite Hd, Hc, Hl, byteOfBits_msb_first by exact Hv.
    repeat split.
  - eexists; eexists. unfold run. rewrite shiftOutMSBFirst_run.
    repeat split.
Qed.

Lemma shiftOutMSBFirst_spec_witness :
  0 <= 0xB0 < 256 /\
  exists es,
    run (shiftOutMSBFirst 0xB0) initialPins = Some (mkPins false false false, es) /\
    levelsOf DataLine es = [true; false; true; true; false; false; false; false] /\
    pulses (levelsOf ClockLine es) = 8%nat.
Proof.
  assert (Hv : 0 <= 0xB0 < 256) by lia.
  split; [exact Hv|].
  destruct (proj1 shiftOutMSBFirst_spec 0xB0 initialPins Hv)
    as (es & Hrun & _ & Hd & _ & _ & Hc & _).
  exists es. split; [exact Hrun|]. split; [exact Hd | exact Hc].
Defined.

(** C5. One call of writeToShiftRegister lowers the latch line, shifts out
    the segment byte, shifts out the digit-select byte and raises the latch
    line, in this order and nothing else: two bytes, segment byte first, the
    latch written low once at the start and high once at the end. *)
Theorem writeToShiftRegister_frame (segments digit : Z) (p : Pins) :
  exists p1 es1 p2 es2 p3 es,
    run (write LatchLine 0) p = Some (p1, [SetLine LatchLine false]) /\
    run (shiftOutMSBFirst segments) p1 = Some (p2, es1) /\
    run (shiftOutMSBFirst digit) p2 = Some (p3, es2) /\
    run (writeToShiftRegister segments digit) p
      = Some (setPin LatchLine true p3, es) /\
    es = [SetLine LatchLine false] ++ es1 ++ es2 ++ [SetLine LatchLine true] /\
    levelsOf LatchLine es = [false; true] /\
    levelsOf DataLine es
      = map (Z.testbit segments) [7; 6; 5; 4; 3; 2; 1; 0]
        ++ map (Z.testbit digit) [7; 6; 5; 4; 3; 2; 1; 0] /\
    pulses (levelsOf ClockLine es) = 16%nat.
Proof.
  do 6 eexists.
  split; [reflexivity|].
  split; [unfold run; rewrite shiftOutMSBFirst_run; reflexivity|].
  split; [unfold run; rewrite shiftOutMSBFirst_run; reflexivity|].
  split.
  { unfold run. rewrite writeToShiftRegister_run. reflexivity. }
  split; [reflexivity|].
  repeat split.
Qed.

(** ** Display driver *)

(** The events of one call of [writeToShiftRegister]. *)
Lemma frame_events (segments digit : Z) (p : Pins) :
  run (writeToShiftRegister segments digit) p
  = Some (mkPins true false (Z.testbit digit 0),
          [SetLine LatchLine false] ++ byteEvents segments
            ++ byteEvents digit ++ [SetLine LatchLine true]).
Proof. unfold run. rewrite writeToShiftRegister_run. reflexivity. Qed.

(** One iteration of the loop of [displayNumber] whose lookups succeed. *)
Lemma displayDigits_step (n : nat) (i d segments pos : Z) (digits : list Z)
  (showDecimalPoint : bool) (decimalPosition : Z) (p : Pins) :
  index digits i = Some d ->
  segmentsFor d showDecimalPoint decimalPosition i = Some segments ->
  index digitPos i = Some pos ->
  displayDigits (S n) i digits showDecimalPoint decimalPosition p
  = match displayDigits n (i + 1) digits showDecimalPoint decimalPosition
            (mkPins true false (Z.testbit pos 0)) with
    | None => None
    | Some (u, p', es) =>
        Some (u, p',
              ([SetLine LatchLine false] ++ byteEvents segments
                 ++ byteEvents pos ++ [SetLine LatchLine true])
                ++ [SleepFor 2] ++ es)
    end.
Proof.
  intros Hd Hs Hp. cbn [displayDigits].
  rewrite (bind_run _ _ p p d []) by (rewrite Hd; reflexivity).
  rewrite (bind_run _ _ p p segments []) by (rewrite Hs; reflexivity).
  rewrite (bind_run _ _ p p pos []) by (rewrite Hp; reflexivity).
  rewrite (bind_run _ _ _ _ tt _ (writeToShiftRegister_run segments pos p)).
  rewrite (bind_run _ _ _ (mkPins true false (Z.testbit pos 0)) tt [SleepFor 2])
    by reflexivity.
  destruct (displayDigits n (i + 1) digits showDecimalPoint decimalPosition _)
    as [[[u p'] es]|]; reflexivity.
Qed.

(** The whole effect of a call of [displayNumber] whose four pattern lookups
    succeed: four frames, leftmost digit first, each held for 2 ms. *)
Lemma displayNumber_run (number : Z) (showDecimalPoint : bool)
  (decimalPosition b0 b1 b2 b3 : Z) (p : Pins) :
  segmentBytes number showDecimalPoint decimalPosition
    = [Some b0; Some b1; Some b2; Some b3] ->
  run (displayNumber number showDecimalPoint decimalPosition) p
  = Some (mkPins true false false,
          flat_map
            (fun '(segments, pos) =>
               [SetLine LatchLine false] ++ byteEvents segments
                 ++ byteEvents pos ++ [SetLine LatchLine true; SleepFor 2])
            [(b0, 0x01); (b1, 0x02); (b2, 0x04); (b3, 0x08)]).
Proof.
  unfold segmentBytes, digitsOf. cbn [combine map].
  intros H. injection H as H0 H1 H2 H3.
  unfold run, displayNumber, digitsOf.
  erewrite displayDigits_step; [|reflexivity|exact H0|reflexivity].
  erewrite displayDigits_step; [|reflexivity|exact H1|reflexivity].
  erewrite displayDigits_step; [|reflexivity|exact H2|reflexivity].
  erewrite displayDigits_step; [|reflexivity|exact H3|reflexivity].
  cbn [displayDigits ret flat_map Z.testbit Z.add Pos.add].
  rewrite <- !app_assoc. reflexivity.
Qed.

Lemma digitsOf_range (n : Z) : 0 <= n ->
  Forall (fun d => 0 <= d <= 9) (digitsOf n).
Proof.
  intros Hn. rewrite digitsOf_nonneg by exact Hn.
  assert (H : forall x, 0 <= x mod 10 <= 9)
    by (intros x; pose proof (Z.mod_pos_bound x 10 ltac:(lia)); lia).
  repeat (constructor; [apply H|]). constructor.
Qed.


Lemma segmentsFor_defined (d : Z) (showDecimalPoint : bool)
  (decimalPosition i : Z) : 0 <= d <= 9 ->
  exists segments,
    segmentsFor d showDecimalPoint decimalPosition i = Some segments.
Proof.
  intros Hd. unfold segmentsFor. rewrite index_digitPattern by exact Hd.
  destruct (showDecimalPoint && (i =? decimalPosition))%bool; eexists; reflexivity.
Qed.

Lemma segmentBytes_defined (n : Z) (showDecimalPoint : bool)
  (decimalPosition : Z) :
  Forall (fun d => 0 <= d <= 9) (digitsOf n) ->
  exists b0 b1 b2 b3,
    segmentBytes n showDecimalPoint decimalPosition
    = [Some b0; Some b1; Some b2; Some b3].
Proof.
  unfold segmentBytes, digitsOf. cbn [combine map]. intros Hr.
  inversion_clear Hr as [|? ? H0 Hr0]. inversion_clear Hr0 as [|? ? H1 Hr1].
  inversion_clear Hr1 as [|? ? H2 Hr2]. inversion_clear Hr2 as [|? ? H3 _].
  destruct (segmentsFor_defined _ showDecimalPoint decimalPosition 0 H0) as [b0 ->].
  destruct (segmentsFor_defined _ showDecimalPoint decimalPosition 1 H1) as [b1 ->].
  destruct (segmentsFor_defined _ showDecimalPoint decimalPosition 2 H2) as [b2 ->].
  destruct (segmentsFor_defined _ showDecimalPoint decimalPosition 3 H3) as [b3 ->].
  exists b0, b1, b2, b3. reflexivity.
Qed.



(** C9. For every n >= 0 each of the four digits extracted by displayNumber
    lies in [0, 9], each lookup into digitPattern is inside the table, and
    the call runs to completion: the undefined (out of bounds) outcome of
    the indexing does not occur. *)
Theorem displayNumber_in_bounds (n : Z) :
  0 <= n ->
  Forall (fun d => 0 <= d <= 9 /\ exists entry, index digitPattern d = Some entry)
         (digitsOf n) /\
  forall showDecimalPoint decimalPosition p,
    exists b0 b1 b2 b3,
      segmentBytes n showDecimalPoint decimalPosition
        = [Some b0; Some b1; Some b2; Some b3] /\
      run (displayNumber n showDecimalPoint decimalPosition) p
        = Some (mkPins true false false,
                flat_map
                  (fun '(segments, pos) =>
                     [SetLine LatchLine false] ++ byteEvents segments
                       ++ byteEvents pos ++ [SetLine LatchLine true; SleepFor 2])
                  [(b0, 0x01); (b1, 0x02); (b2, 0x04); (b3, 0x08)]).
Proof.
  intros Hn. pose proof (digitsOf_range n Hn) as Hr. split.
  - eapply Forall_impl; [|exact Hr]. intros d Hd. split; [exact Hd|].
    eexists. apply index_digitPattern, Hd.
  - intros showDecimalPoint decimalPosition p.
    unfold digitsOf in Hr.
    inversion_clear Hr as [|? ? H0 Hr0]. inversion_clear Hr0 as [|? ? H1 Hr1].
    inversion_clear Hr1 as [|? ? H2 Hr2]. inversion_clear Hr2 as [|? ? H3 _].
    destruct (segmentsFor_defined _ showDecimalPoint decimalPosition 0 H0) as [b0 E0].
    destruct (segmentsFor_defined _ showDecimalPoint decimalPosition 1 H1) as [b1 E1].
    destruct (segmentsFor_defined _ showDecimalPoint decimalPosition 2 H2) as [b2 E2].
    destruct (segmentsFor_defined _ showDecimalPoint decimalPosition 3 H3) as [b3 E3].
    exists b0, b1, b2, b3.
    assert (E : segmentBytes n showDecimalPoint decimalPosition
                = [Some b0; Some b1; Some b2; Some b3]).
    { unfold segmentBytes, digitsOf. cbn [combine map].
      rewrite E0, E1, E2, E3. reflexivity. }
    split; [exact E|]. apply displayNumber_run, E.
Qed.

Lemma displayNumber_in_bounds_witness :
  0 <= 530 /\
  Forall (fun d => 0 <= d <= 9 /\ exists entry, index digitPattern d = Some entry)
         [0; 5; 3; 0].
Proof.
  assert (Hn : 0 <= 530) by lia.
  split; [exact Hn|].
  exact (proj1 (displayNumber_in_bounds 530 Hn)).
Defined.

(** C8. For every n > 9999 displayNumber does not fail: it displays four
    digits, each in [0, 9], and they are the four digits of n mod 10000
    (they recompose to n mod 10000); the segment bytes sent and the whole
    effect of the call are those of the call on n mod 10000. *)
Theorem displayNumber_aliases (n : Z) :
  n > 9999 ->
  (exists d0 d1 d2 d3,
     digitsOf n = [d0; d1; d2; d3] /\
     digitsOf (n mod 10000) = [d0; d1; d2; d3] /\
     0 <= d0 <= 9 /\ 0 <= d1 <= 9 /\ 0 <= d2 <= 9 /\ 0 <= d3 <= 9 /\
     d0 * 1000 + d1 * 100 + d2 * 10 + d3 = n mod 10000) /\
  forall showDecimalPoint decimalPosition p,
    displayNumber n showDecimalPoint decimalPosition p
    = displayNumber (n mod 10000) showDecimalPoint decimalPosition p /\
    exists b0 b1 b2 b3 es,
      segmentBytes n showDecimalPoint decimalPosition
        = [Some b0; Some b1; Some b2; Some b3] /\
      segmentBytes (n mod 10000) showDecimalPoint decimalPosition
        = [Some b0; Some b1; Some b2; Some b3] /\
      es = flat_map
             (fun '(segments, pos) =>
                [SetLine LatchLine false] ++ byteEvents segments
                  ++ byteEvents pos ++ [SetLine LatchLine true; SleepFor 2])
             [(b0, 0x01); (b1, 0x02); (b2, 0x04); (b3, 0x08)] /\
      run (displayNumber n showDecimalPoint decimalPosition) p
        = Some (mkPins true false false, es) /\
      run (displayNumber (n mod 10000) showDecimalPoint decimalPosition) p
        = Some (mkPins true false false, es).
Proof.
  intros Hn.
  assert (Hn0 : 0 <= n) by lia.
  pose proof (Z.mod_pos_bound n 10000 ltac:(lia)) as Hm.
  pose proof (digitsOf_mod n Hn0) as E.
  split.
  - exists ((n mod 10000 / 1000) mod 10), ((n mod 10000 / 100) mod 10),
      ((n mod 10000 / 10) mod 10), (n mod 10000 mod 10).
    split; [rewrite E; apply digitsOf_nonneg; lia|].
    split; [apply digitsOf_nonneg; lia|].
    repeat split; Z.to_euclidean_division_equations; lia.
  - intros showDecimalPoint decimalPosition p.
    split; [unfold displayNumber; rewrite E; reflexivity|].
    destruct (segmentBytes_defined n showDecimalPoint decimalPosition
                (digitsOf_range n Hn0)) as (b0 & b1 & b2 & b3 & Hb).
    assert (Hb' : segmentBytes (n mod 10000) showDecimalPoint decimalPosition
                  = [Some b0; Some b1; Some b2; Some b3])
      by (unfold segmentBytes in *; rewrite <- E; exact Hb).
    exists b0, b1, b2, b3. eexists.
    split; [exact Hb|]. split; [exact Hb'|]. split; [reflexivity|].
    split; apply displayNumber_run; assumption.
Qed.

Lemma displayNumber_aliases_witness :
  12345 > 9999 /\
  digitsOf 12345 = [2; 3; 4; 5] /\
  exists es,
    run (displayNumber 12345 false 1) initialPins
      = Some (mkPins true false false, es) /\
    run (displayNumber 2345 false 1) initialPins
      = Some (mkPins true false false, es).
Proof.
  assert (Hn : 12345 > 9999) by lia.
  split; [exact Hn|].
  destruct (displayNumber_aliases 12345 Hn) as [Hd Hrun].
  split; [reflexivity|].
  destruct (Hrun false 1 initialPins)
    as (_ & b0 & b1 & b2 & b3 & es & _ & _ & _ & H1 & H2).
  exists es. split; [exact H1 | exact H2].
Defined.

(** ** Main loop *)

(** C10. In the time branch, when seconds is in [0,60) and minutes in
    [0,100), the value handed to displayNumber is minutes*100 + seconds, it
    lies in [0, 9959], so it is its own residue modulo 10000, and its four
    digits are the two digits of minutes followed by the two of seconds. *)
Theorem timeValue_in_range (inp : Inputs) (t : Time) :
  time_inv t -> s3 inp = true ->
  selectDisplay inp t = Some (Display (timeValue t) true 1) /\
  timeValue t = minutes t * 100 + seconds t /\
  0 <= timeValue t <= 9959 /\
  timeValue t mod 10000 = timeValue t /\
  digitsOf (timeValue t)
    = [minutes t / 10; minutes t mod 10; seconds t / 10; seconds t mod 10].
Proof.
  intros [Hs Hm] H3.
  assert (E : timeValue t = minutes t * 100 + seconds t)
    by (unfold timeValue; unwrap; reflexivity).
  split; [unfold selectDisplay; rewrite H3; reflexivity|].
  split; [exact E|]. rewrite E.
  split; [lia|]. split; [apply Z.mod_small; lia|].
  rewrite digitsOf_nonneg by lia.
  f_equal; [|f_equal; [|f_equal; [|f_equal]]];
    Z.to_euclidean_division_equations; lia.
Qed.

Lemma timeValue_in_range_witness :
  time_inv (mkTime 59 99) /\ s3 (mkInputs true true 0) = true /\
  timeValue (mkTime 59 99) = 9959 /\
  digitsOf (timeValue (mkTime 59 99)) = [9; 9; 5; 9].
Proof.
  assert (Hi : time_inv (mkTime 59 99)) by (unfold time_inv; simpl; lia).
  assert (H3 : s3 (mkInputs true true 0) = true) by reflexivity.
  split; [exact Hi|]. split; [exact H3|].
  destruct (timeValue_in_range (mkInputs true true 0) (mkTime 59 99) Hi H3)
    as (_ & Hv & _ & _ & Hd).
  split; [exact Hv | exact Hd].
Defined.

(** What an iteration does to the lines: the debounce sleep when S1 is
    pressed, then the selected call of the display driver. *)
Lemma loopBody_run (inp : Inputs) (t : Time) (p : Pins) :
  run (loopBody inp t) p
  = match selectDisplay inp (if negb (s1 inp) then resetTime t else t) with
    | None => None
    | Some c =>
        match run (perform c) p with
        | None => None
        | Some (p', es) =>
            Some (p', (if negb (s1 inp) then [SleepFor 200] else []) ++ es)
        end
    end.
Proof.
  unfold run, loopBody, bind, lift, ret, sleep_for.
  destruct (negb (s1 inp)); cbn [app];
    destruct (selectDisplay inp _) as [c|]; try reflexivity;
    destruct (perform c p) as [[[u p'] es]|]; try reflexivity;
    cbn [app]; rewrite app_nil_r; reflexivity.
Qed.

(** The two literals are the binary32 numbers the compiler produces: 65535
    converts exactly, and [3.3f] is the correctly rounded quotient 33/10. *)
Lemma float_literals :
  lit_65535 = float_of_int 65535 /\
  lit_3_3 = fdiv (float_of_int 33) (float_of_int 10) /\
  valid_binary prec emax lit_65535 = true /\
  valid_binary prec emax lit_3_3 = true.
Proof. repeat split; vm_compute; reflexivity. Qed.

(** C7. For the raw sample 32768 the voltage branch computes a voltage
    within 0.0001 of 1.65 V, converts it to the integer 1650 and calls the
    display driver on it with the decimal point shown at digit index 0. *)
Theorem voltage_half_scale :
  (Qabs (float_value (voltageOf 32768) - (165 # 100)) < 1 # 10000)%Q /\
  voltageValue (voltageOf 32768) = Some 1650 /\
  (forall b t,
     selectDisplay (mkInputs b false 32768) t = Some (Display 1650 true 0)) /\
  segmentBytes 1650 true 0 = [Some 0x79; Some 0x82; Some 0x92; Some 0xC0] /\
  (forall t p,
     run (loopBody (mkInputs true false 32768) t) p
     = run (displayNumber 1650 true 0) p).
Proof.
  assert (Hv : voltageValue (voltageOf 32768) = Some 1650)
    by (vm_compute; reflexivity).
  assert (Hsel : forall b t,
            selectDisplay (mkInputs b false 32768) t = Some (Display 1650 true 0)).
  { intros b t. unfold selectDisplay. cbn [s3 negb read_u16].
    rewrite Hv. reflexivity. }
  split; [vm_compute; reflexivity|].
  split; [exact Hv|]. split; [exact Hsel|].
  split; [vm_compute; reflexivity|].
  intros t p. rewrite loopBody_run. cbn [s1 negb]. rewrite Hsel.
  cbn [perform app].
  destruct (run (displayNumber 1650 true 0) p) as [[p' es]|]; reflexivity.
Qed.

(** * Further properties of the code *)

(** ** Time base *)

Lemma ticks_add (a b : nat) : forall t, ticks (a + b) t = ticks b (ticks a t).
Proof. induction a as [|a IH]; intros t; simpl; [reflexivity | apply IH]. Qed.

Lemma ticks_valid_form (n : nat) (t : Time) :
  time_inv t ->
  ticks n t =
    mkTime ((minutes t * 60 + seconds t + Z.of_nat n) mod 6000 mod 60)
           ((minutes t * 60 + seconds t + Z.of_nat n) mod 6000 / 60).
Proof.
  intros Ht. apply time_of_elapsed; [apply ticks_inv, Ht|].
  apply ticks_elapsed, Ht.
Qed.

(** X1. From any state that satisfies the invariant, [n] invocations of the
    callback advance the count minutes*60 + seconds by [n] modulo 6000; the
    new seconds and minutes are the remainder and quotient by 60. *)
Theorem ticks_from_valid (n : nat) (t : Time) :
  time_inv t ->
  ticks n t =
    mkTime ((minutes t * 60 + seconds t + Z.of_nat n) mod 6000 mod 60)
           ((minutes t * 60 + seconds t + Z.of_nat n) mod 6000 / 60).
Proof.
  intros Ht. destruct t as [s m]. pose proof Ht as [Hs Hm]. cbn in Hs, Hm.
  pose proof (ticks_inv n _ Ht) as [Hs' Hm'].
  pose proof (ticks_elapsed n _ Ht) as E. cbn [seconds minutes] in E |- *.
  destruct (ticks n (mkTime s m)) as [s' m']. cbn in Hs', Hm', E.
  rewrite <- E. f_equal; Z.to_euclidean_division_equations; lia.
Qed.

Lemma ticks_from_valid_witness :
  time_inv (mkTime 59 98) /\ ticks 62 (mkTime 59 98) = mkTime 1 0.
Proof.
  assert (Ht : time_inv (mkTime 59 98)) by (unfold time_inv; simpl; lia).
  split; [exact Ht|].
  exact (ticks_from_valid 62 (mkTime 59 98) Ht).
Defined.

(** X2. The counter has period exactly 6000: from a state that satisfies
    the invariant, two numbers of invocations lead to the same state exactly
    when they are congruent modulo 6000. *)
Theorem ticks_same_iff (a b : nat) (t : Time) :
  time_inv t ->
  ticks a t = ticks b t <-> Z.of_nat a mod 6000 = Z.of_nat b mod 6000.
Proof.
  intros Ht. pose proof Ht as [Hs Hm]. split.
  - intros E.
    pose proof (ticks_elapsed a t Ht) as Ea.
    pose proof (ticks_elapsed b t Ht) as Eb.
    rewrite E, Eb in Ea. clear E Eb.
    Z.to_euclidean_division_equations; lia.
  - intros E. rewrite (ticks_valid_form a t Ht), (ticks_valid_form b t Ht).
    replace ((minutes t * 60 + seconds t + Z.of_nat a) mod 6000)
      with ((minutes t * 60 + seconds t + Z.of_nat b) mod 6000);
      [reflexivity|].
    rewrite (Z.add_mod _ (Z.of_nat b)), (Z.add_mod _ (Z.of_nat a)) by lia.
    rewrite E. reflexivity.
Qed.

Lemma ticks_same_iff_witness :
  time_inv (mkTime 12 34) /\
  ticks (Z.to_nat 6000) (mkTime 12 34) = ticks 0 (mkTime 12 34).
Proof.
  assert (Ht : time_inv (mkTime 12 34)) by (unfold time_inv; simpl; lia).
  split; [exact Ht|].
  apply (proj2 (ticks_same_iff (Z.to_nat 6000) 0 (mkTime 12 34) Ht)).
  reflexivity.
Defined.

Lemma updateTime_high (t : Time) :
  59 <= seconds t < INT_MAX -> 0 <= minutes t < INT_MAX ->
  time_inv (updateTime t).
Proof.
  unfold INT_MAX. intros Hs Hm. unfold updateTime; cbv zeta.
  rewrite (int_wrap_id (seconds t + 1)), (int_wrap_id (minutes t + 1))
    by (unfold in_int, INT_MIN, INT_MAX; lia).
  destruct (Z.geb_spec (seconds t + 1) 60); [|lia].
  destruct (Z.geb_spec (minutes t + 1) 100); unfold time_inv; simpl; lia.
Qed.

Lemma updateTime_low (t : Time) :
  0 <= seconds t < 59 -> updateTime t = mkTime (seconds t + 1) (minutes t).
Proof.
  intros Hs. unfold updateTime; cbv zeta.
  rewrite (int_wrap_id (seconds t + 1))
    by (unfold in_int, INT_MIN, INT_MAX; lia).
  destruct (Z.geb_spec (seconds t + 1) 60); [lia | reflexivity].
Qed.

Lemma ticks_recover (k : nat) : forall t,
  0 <= seconds t < INT_MAX -> 0 <= minutes t < INT_MAX ->
  (1 <= k)%nat -> 60 - seconds t <= Z.of_nat k ->
  time_inv (ticks k t).
Proof.
  induction k as [|k IH]; intros t Hs Hm Hk Hk'; [lia|].
  assert (HM : 60 < INT_MAX) by (unfold INT_MAX; lia).
  cbn [ticks]. destruct (Z.lt_ge_cases (seconds t) 59) as [Hlow|Hhigh].
  - rewrite updateTime_low by lia. apply IH; cbn [seconds minutes]; lia.
  - apply ticks_inv, updateTime_high; [lia | exact Hm].
Qed.

(** X3. Because the callback compares with [>=], counters that hold any
    non-negative values below INT_MAX, also values outside the invariant,
    are back inside it after 60 invocations and stay there. *)
Theorem ticks_restore_invariant (n : nat) (t : Time) :
  0 <= seconds t < INT_MAX -> 0 <= minutes t < INT_MAX ->
  (60 <= n)%nat ->
  time_inv (ticks n t).
Proof.
  intros Hs Hm Hn. apply ticks_recover; try assumption; lia.
Qed.

Lemma ticks_restore_invariant_witness :
  0 <= seconds (mkTime 7 250) < INT_MAX /\
  0 <= minutes (mkTime 7 250) < INT_MAX /\
  (60 <= 60)%nat /\
  ~ time_inv (ticks 52 (mkTime 7 250)) /\
  time_inv (ticks 60 (mkTime 7 250)).
Proof.
  assert (Hs : 0 <= seconds (mkTime 7 250) < INT_MAX)
    by (unfold INT_MAX; simpl; lia).
  assert (Hm : 0 <= minutes (mkTime 7 250) < INT_MAX)
    by (unfold INT_MAX; simpl; lia).
  assert (Hn : (60 <= 60)%nat) by lia.
  split; [exact Hs|]. split; [exact Hm|]. split; [exact Hn|].
  split; [intros [_ [_ H]]; vm_compute in H; discriminate H|].
  exact (ticks_restore_invariant 60 (mkTime 7 250) Hs Hm Hn).
Defined.

(** ** Display driver *)

Lemma index_negative (table : list Z) (i : Z) : i < 0 -> index table i = None.
Proof.
  intros Hi. unfold index. destruct (Z.ltb_spec i 0); [reflexivity | lia].
Qed.

(** An iteration of the loop of [displayNumber] whose pattern lookup is out
    of bounds makes the whole call undefined. *)
Lemma displayDigits_undefined (n : nat) (i d : Z) (digits : list Z)
  (showDecimalPoint : bool) (decimalPosition : Z) (p : Pins) :
  index digits i = Some d -> d < 0 ->
  displayDigits (S n) i digits showDecimalPoint decimalPosition p = None.
Proof.
  intros Hd Hneg. cbn [displayDigits].
  rewrite (bind_run _ _ p p d []) by (rewrite Hd; reflexivity).
  unfold bind at 1, lift at 1, segmentsFor.
  rewrite index_negative by exact Hneg. reflexivity.
Qed.

(** X4. [displayNumber] is undefined (it indexes [digitPattern] with a
    negative digit) exactly on the negative numbers that are not multiples
    of 10000; on every other [int] it runs to completion. *)
Theorem displayNumber_undefined_iff (n : Z) (showDecimalPoint : bool)
  (decimalPosition : Z) (p : Pins) :
  run (displayNumber n showDecimalPoint decimalPosition) p = None
  <-> n < 0 /\ Z.rem n 10000 <> 0.
Proof.
  split.
  - intros Hnone.
    assert (Hbad : ~ Forall (fun d => 0 <= d <= 9) (digitsOf n)).
    { intros Hr.
      destruct (segmentBytes_defined n showDecimalPoint decimalPosition Hr)
        as (b0 & b1 & b2 & b3 & E).
      rewrite (displayNumber_run _ _ _ _ _ _ _ p E) in Hnone. discriminate. }
    destruct (Z.lt_ge_cases n 0) as [Hneg|Hpos];
      [|exfalso; apply Hbad, digitsOf_range, Hpos].
    split; [exact Hneg|]. intros Hrem. apply Hbad.
    unfold digitsOf. repeat (constructor; [Z.to_euclidean_division_equations; lia|]).
    constructor.
  - intros [Hneg Hrem]. unfold run, displayNumber, digitsOf.
    set (d0 := Z.rem (Z.quot n 1000) 10). set (d1 := Z.rem (Z.quot n 100) 10).
    set (d2 := Z.rem (Z.quot n 10) 10). set (d3 := Z.rem n 10).
    assert (H0 : d0 < 0 \/ d0 = 0) by (subst d0; Z.to_euclidean_division_equations; lia).
    assert (H1 : d1 < 0 \/ d1 = 0) by (subst d1; Z.to_euclidean_division_equations; lia).
    assert (H2 : d2 < 0 \/ d2 = 0) by (subst d2; Z.to_euclidean_division_equations; lia).
    assert (H3 : d3 < 0 \/ d3 = 0) by (subst d3; Z.to_euclidean_division_equations; lia).
    assert (Hz : ~ (d0 = 0 /\ d1 = 0 /\ d2 = 0 /\ d3 = 0))
      by (subst d0 d1 d2 d3; Z.to_euclidean_division_equations; lia).
    destruct (segmentsFor_defined 0 showDecimalPoint decimalPosition 0 ltac:(lia)) as [z0 E0].
    destruct (segmentsFor_defined 0 showDecimalPoint decimalPosition 1 ltac:(lia)) as [z1 E1].
    destruct (segmentsFor_defined 0 showDecimalPoint decimalPosition 2 ltac:(lia)) as [z2 E2].
    destruct H0 as [H0|H0];
      [erewrite displayDigits_undefined; [reflexivity|reflexivity|exact H0]|].
    rewrite H0.
    erewrite displayDigits_step; [|reflexivity|exact E0|reflexivity].
    destruct H1 as [H1|H1];
      [erewrite displayDigits_undefined; [reflexivity|reflexivity|exact H1]|].
    rewrite H1.
    erewrite displayDigits_step; [|reflexivity|exact E1|reflexivity].
    destruct H2 as [H2|H2];
      [erewrite displayDigits_undefined; [reflexivity|reflexivity|exact H2]|].
    rewrite H2.
    erewrite displayDigits_step; [|reflexivity|exact E2|reflexivity].
    destruct H3 as [H3|H3];
      [erewrite displayDigits_undefined; [reflexivity|reflexivity|exact H3]|].
    exfalso. apply Hz. repeat split; assumption.
Qed.

(** The byte computed for a digit fits 8 bits, reads back as the digit, and
    has bit 7 low exactly at the decimal-point position. *)
Lemma segmentsFor_byte (d i decimalPosition b : Z) (showDecimalPoint : bool) :
  0 <= d <= 9 ->
  segmentsFor d showDecimalPoint decimalPosition i = Some b ->
  0 <= b < 256 /\
  digitOfSegments b = Some d /\
  Z.testbit b 7 = negb (showDecimalPoint && (i =? decimalPosition)).
Proof.
  intros Hd. unfold segmentsFor. rewrite index_digitPattern by exact Hd.
  assert (H : d = 0 \/ d = 1 \/ d = 2 \/ d = 3 \/ d = 4 \/ d = 5 \/ d = 6
              \/ d = 7 \/ d = 8 \/ d = 9) by lia.
  destruct (showDecimalPoint && (i =? decimalPosition))%bool;
    intros E; injection E as <-;
    repeat (destruct H as [->|H]); try subst d;
    (split; [vm_compute; split; [discriminate | reflexivity]|]);
    split; reflexivity.
Qed.

(** X5. The segment byte sent for a digit reads back as that digit, with
    or without the decimal point: no two digits share a pattern. *)
Theorem segments_read_back (d i decimalPosition : Z) (showDecimalPoint : bool) :
  0 <= d <= 9 ->
  exists b,
    segmentsFor d showDecimalPoint decimalPosition i = Some b /\
    digitOfSegments b = Some d /\
    forall b', segmentsFor d showDecimalPoint decimalPosition i = Some b' ->
               digitOfSegments b' = Some d.
Proof.
  intros Hd.
  destruct (segmentsFor_defined d showDecimalPoint decimalPosition i Hd)
    as [b E].
  exists b. split; [exact E|]. split.
  - apply (segmentsFor_byte d i decimalPosition b showDecimalPoint Hd E).
  - intros b' E'.
    apply (segmentsFor_byte d i decimalPosition b' showDecimalPoint Hd E').
Qed.

Lemma segments_read_back_witness :
  0 <= 7 <= 9 /\ segmentsFor 7 true 2 2 = Some 0x78 /\
  digitOfSegments 0x78 = Some 7.
Proof.
  assert (Hd : 0 <= 7 <= 9) by lia.
  assert (E : segmentsFor 7 true 2 2 = Some 0x78) by reflexivity.
  split; [exact Hd|]. split; [exact E|].
  destruct (segments_read_back 7 2 2 true Hd) as (b & _ & _ & Hall).
  exact (Hall 0x78 E).
Defined.

(** ** The receiving end *)

Lemma receiveAll_app (es1 es2 : list Event) (r : Receiver) :
  receiveAll (es1 ++ es2) r = receiveAll es2 (receiveAll es1 r).
Proof. apply fold_left_app. Qed.

(** Eight clock pulses shift one byte in behind what is there. *)
Lemma receive_byte (v : Z) (r : Receiver) :
  0 <= v < 256 -> clockPin (lines r) = false ->
  receiveAll (byteEvents v) r
  = mkReceiver (mkPins (latchPin (lines r)) false (Z.testbit v 0))
      (shifted r * 256 + v) (shown r).
Proof.
  intros Hv Hc. destruct r as [[l c d] s sh]. cbn in Hc. subst c.
  pose proof (byteOfBits_msb_first v Hv) as E.
  unfold byteOfBits in E. cbn [map fold_left] in E.
  unfold receiveAll, byteEvents.
  cbn [flat_map app fold_left receive setPin lines shifted shown
       latchPin clockPin dataPin negb andb bitValue].
  f_equal. unfold bitValue.
  repeat match goal with
         | |- context [if ?c then 1 else 0] =>
             let b := fresh "b" in
             set (b := if c then 1 else 0) in *; clearbody b
         end.
  lia.
Qed.

(** One frame followed by its hold time puts one word on the outputs: the
    segment byte in the high half, the select byte in the low half. *)
Lemma receive_frame (segments pos : Z) (r : Receiver) :
  0 <= segments < 256 -> 0 <= pos < 256 -> clockPin (lines r) = false ->
  receiveAll ([SetLine LatchLine false] ++ byteEvents segments
                ++ byteEvents pos ++ [SetLine LatchLine true; SleepFor 2]) r
  = mkReceiver (mkPins true false (Z.testbit pos 0))
      (shifted r * 65536 + (segments * 256 + pos))
      (shown r ++ [segments * 256 + pos]).
Proof.
  intros Hs Hp Hc. destruct r as [[l c d] s sh]. cbn in Hc. subst c.
  rewrite receiveAll_app. cbn [receiveAll fold_left receive lines latchPin].
  rewrite andb_false_r.
  fold (receiveAll (byteEvents segments ++ byteEvents pos
                      ++ [SetLine LatchLine true; SleepFor 2])).
  rewrite receiveAll_app, receive_byte
    by (cbn; first [assumption | reflexivity]).
  rewrite receiveAll_app, receive_byte
    by (cbn; first [assumption | reflexivity]).
  cbn. f_equal; [lia|]. f_equal. f_equal.
  replace ((s * 256 + segments) * 256 + pos)
    with (segments * 256 + pos + s * 65536) by lia.
  rewrite Z.mod_add by lia. apply Z.mod_small. lia.
Qed.

Lemma receiveAll_sleep (ms : Z) (r : Receiver) :
  receiveAll [SleepFor ms] r = r.
Proof. reflexivity. Qed.

(** X6. Round trip of one frame: when the clock line is low beforehand,
    the shift register behind the lines takes in exactly the 16 bits of a
    call of writeToShiftRegister and, on the closing latch edge, puts the
    word segments*256 + digit on its outputs, whatever it held before. *)
Theorem writeToShiftRegister_received (segments digit : Z) (r : Receiver) :
  0 <= segments < 256 -> 0 <= digit < 256 -> clockPin (lines r) = false ->
  exists p es,
    run (writeToShiftRegister segments digit) (lines r) = Some (p, es) /\
    receiveAll es r
    = mkReceiver p (shifted r * 65536 + (segments * 256 + digit))
        (shown r ++ [segments * 256 + digit]).
Proof.
  intros Hs Hd Hc. eexists; eexists.
  split; [apply frame_events|].
  rewrite <- (receive_frame segments digit r Hs Hd Hc).
  change (receiveAll
            ([SetLine LatchLine false] ++ byteEvents segments
               ++ byteEvents digit ++ [SetLine LatchLine true; SleepFor 2]) r)
    with (receiveAll
            (([SetLine LatchLine false] ++ byteEvents segments
                ++ byteEvents digit ++ [SetLine LatchLine true])
               ++ [SleepFor 2]) r).
  rewrite (receiveAll_app _ [SleepFor 2]), receiveAll_sleep. reflexivity.
Qed.

Lemma writeToShiftRegister_received_witness :
  0 <= 0x12 < 256 /\ 0 <= 0x02 < 256 /\
  exists p es,
    run (writeToShiftRegister 0x12 0x02) initialPins = Some (p, es) /\
    shown (receiveAll es (mkReceiver initialPins 0xFFFF [])) = [0x1202].
Proof.
  assert (Hs : 0 <= 0x12 < 256) by lia.
  assert (Hd : 0 <= 0x02 < 256) by lia.
  split; [exact Hs|]. split; [exact Hd|].
  destruct (writeToShiftRegister_received 0x12 0x02
              (mkReceiver initialPins 0xFFFF []) Hs Hd eq_refl)
    as (p & es & Hrun & Hrecv).
  exists p, es. split; [exact Hrun|]. rewrite Hrecv. reflexivity.
Defined.

Lemma readWord_frame (b pos i d : Z) :
  0 <= b < 256 -> 0 <= pos < 256 ->
  positionOfSelect pos = Some i -> digitOfSegments b = Some d ->
  readWord (b * 256 + pos) = Some (i, d, negb (Z.testbit b 7)).
Proof.
  intros Hb Hp Hi Hd. unfold readWord.
  replace ((b * 256 + pos) mod 256) with pos
    by (Z.to_euclidean_division_equations; lia).
  replace ((b * 256 + pos) / 256) with b
    by (Z.to_euclidean_division_equations; lia).
  rewrite Hi, Hd. reflexivity.
Qed.

(** What the shift register shows for one call of [displayNumber]. *)
Lemma displayNumber_shown (n : Z) (showDecimalPoint : bool)
  (decimalPosition : Z) (r : Receiver) :
  0 <= n -> clockPin (lines r) = false ->
  exists es ws,
    run (displayNumber n showDecimalPoint decimalPosition) (lines r)
      = Some (mkPins true false false, es) /\
    lines (receiveAll es r) = mkPins true false false /\
    positionsShown ws = [Some 0; Some 1; Some 2; Some 3] /\
    shown (receiveAll es r) = shown r ++ ws /\
    map readWord ws
      = map (fun '(i, d) =>
               Some (i, d, showDecimalPoint && (i =? decimalPosition)))
            (combine [0; 1; 2; 3] (digitsOf n)) /\
    sleptMs es = 8.
Proof.
  intros Hn Hc. pose proof (digitsOf_range n Hn) as Hr.
  destruct (segmentBytes_defined n showDecimalPoint decimalPosition Hr)
    as (b0 & b1 & b2 & b3 & E).
  rewrite (displayNumber_run _ _ _ _ _ _ _ (lines r) E).
  unfold segmentBytes in E. unfold digitsOf in *. cbn [combine map] in E |- *.
  injection E as E0 E1 E2 E3.
  inversion_clear Hr as [|? ? H0 Hr0]. inversion_clear Hr0 as [|? ? H1 Hr1].
  inversion_clear Hr1 as [|? ? H2 Hr2]. inversion_clear Hr2 as [|? ? H3 _].
  destruct (segmentsFor_byte _ _ _ _ _ H0 E0) as (R0 & D0 & P0).
  destruct (segmentsFor_byte _ _ _ _ _ H1 E1) as (R1 & D1 & P1).
  destruct (segmentsFor_byte _ _ _ _ _ H2 E2) as (R2 & D2 & P2).
  destruct (segmentsFor_byte _ _ _ _ _ H3 E3) as (R3 & D3 & P3).
  eexists;
    exists [b0 * 256 + 0x01; b1 * 256 + 0x02; b2 * 256 + 0x04; b3 * 256 + 0x08].
  split; [reflexivity|].
  cbn [flat_map].
  rewrite receiveAll_app, receive_frame by (try assumption; lia).
  rewrite receiveAll_app, receive_frame by (try reflexivity; try assumption; lia).
  rewrite receiveAll_app, receive_frame by (try reflexivity; try assumption; lia).
  rewrite receiveAll_app, receive_frame by (try reflexivity; try assumption; lia).
  cbn [receiveAll fold_left lines shown].
  split; [reflexivity|].
  split.
  { unfold positionsShown. cbn [map].
    replace ((b0 * 256 + 1) mod 256) with 1
      by (Z.to_euclidean_division_equations; lia).
    replace ((b1 * 256 + 2) mod 256) with 2
      by (Z.to_euclidean_division_equations; lia).
    replace ((b2 * 256 + 4) mod 256) with 4
      by (Z.to_euclidean_division_equations; lia).
    replace ((b3 * 256 + 8) mod 256) with 8
      by (Z.to_euclidean_division_equations; lia).
    reflexivity. }
  split; [rewrite <- !app_assoc; reflexivity|].
  split; [|reflexivity].
  cbn [map].
  rewrite (readWord_frame b0 0x01 0 _ R0 ltac:(lia) eq_refl D0).
  rewrite (readWord_frame b1 0x02 1 _ R1 ltac:(lia) eq_refl D1).
  rewrite (readWord_frame b2 0x04 2 _ R2 ltac:(lia) eq_refl D2).
  rewrite (readWord_frame b3 0x08 3 _ R3 ltac:(lia) eq_refl D3).
  rewrite P0, P1, P2, P3, !negb_involutive. reflexivity.
Qed.

(** X7. Round trip of the display: for n >= 0 and the clock line low
    beforehand, a call of displayNumber puts four words on the outputs of
    the shift register, which light up positions 0, 1, 2, 3 in this order,
    each with the corresponding digit of n and with the decimal point on
    exactly when it was asked for at that position; the call sleeps 8 ms in
    all. *)
Theorem displayNumber_received (n : Z) (showDecimalPoint : bool)
  (decimalPosition : Z) (r : Receiver) :
  0 <= n -> clockPin (lines r) = false ->
  exists p es ws,
    run (displayNumber n showDecimalPoint decimalPosition) (lines r)
      = Some (p, es) /\
    lines (receiveAll es r) = p /\
    shown (receiveAll es r) = shown r ++ ws /\
    map readWord ws
      = map (fun '(i, d) =>
               Some (i, d, showDecimalPoint && (i =? decimalPosition)))
            (combine [0; 1; 2; 3] (digitsOf n)) /\
    sleptMs es = 8.
Proof.
  intros Hn Hc.
  destruct (displayNumber_shown n showDecimalPoint decimalPosition r Hn Hc)
    as (es & ws & Hrun & Hl & _ & Hs & Hw & Hms).
  exists (mkPins true false false), es, ws. repeat split; assumption.
Qed.

Lemma displayNumber_received_witness :
  0 <= 530 /\
  exists p es ws,
    run (displayNumber 530 true 1) initialPins = Some (p, es) /\
    shown (receiveAll es (mkReceiver initialPins 0 [])) = ws /\
    map readWord ws
      = [Some (0, 0, false); Some (1, 5, true);
         Some (2, 3, false); Some (3, 0, false)].
Proof.
  assert (Hn : 0 <= 530) by lia.
  split; [exact Hn|].
  destruct (displayNumber_received 530 true 1 (mkReceiver initialPins 0 [])
              Hn eq_refl) as (p & es & ws & Hrun & _ & Hshown & Hread & _).
  exists p, es, ws. split; [exact Hrun|]. split; [exact Hshown|]. exact Hread.
Defined.

(** ** Voltage conversion *)

Lemma allFrom_spec (P : Z -> bool) (n : nat) : forall i,
  allFrom n i P = true -> forall v, i <= v < i + Z.of_nat n -> P v = true.
Proof.
  induction n as [|n IH]; intros i H v Hv; [lia|].
  cbn [allFrom] in H. apply andb_true_iff in H. destruct H as [Hi Hrest].
  destruct (Z.eq_dec v i) as [->|Hne]; [exact Hi|].
  apply (IH (i + 1) Hrest). lia.
Qed.

(** The single-precision computation agrees with integer arithmetic on
    every 16-bit sample (checked sample by sample). *)
Lemma voltageValue_all_samples :
  allFrom (Z.to_nat 65536) 0
    (fun sample =>
       match voltageValue (voltageOf sample) with
       | Some v => v =? sample * 3300 / 65535
       | None => false
       end) = true.
Proof. vm_compute. reflexivity. Qed.

Lemma voltageValue_sample (sample : Z) :
  0 <= sample <= 65535 ->
  voltageValue (voltageOf sample) = Some (sample * 3300 / 65535).
Proof.
  intros Hs.
  pose proof (allFrom_spec _ _ _ voltageValue_all_samples sample ltac:(lia)) as H.
  cbv beta in H.
  destruct (voltageValue (voltageOf sample)) as [v|]; [|discriminate].
  apply Z.eqb_eq in H. rewrite H. reflexivity.
Qed.

(** X8. For every 16-bit sample the value the voltage branch displays,
    computed in single precision, is exactly the integer quotient
    sample*3300/65535: the rounding of the three float operations never
    changes the truncated result.  It is 0 at sample 0, 3300 at full scale
    and never decreases when the sample grows. *)
Theorem voltageValue_exact (sample : Z) :
  0 <= sample <= 65535 ->
  voltageValue (voltageOf sample) = Some (sample * 3300 / 65535) /\
  0 <= sample * 3300 / 65535 <= 3300 /\
  (forall sample', sample <= sample' <= 65535 ->
     exists v', voltageValue (voltageOf sample') = Some v' /\
                sample * 3300 / 65535 <= v').
Proof.
  intros Hs. split; [apply voltageValue_sample, Hs|].
  split; [Z.to_euclidean_division_equations; lia|].
  intros sample' Hs'. eexists.
  split; [apply voltageValue_sample; lia|].
  Z.to_euclidean_division_equations; lia.
Qed.

Lemma voltageValue_exact_witness :
  0 <= 65535 <= 65535 /\ voltageValue (voltageOf 65535) = Some 3300.
Proof.
  assert (Hs : 0 <= 65535 <= 65535) by lia.
  split; [exact Hs|].
  exact (proj1 (voltageValue_exact 65535 Hs)).
Defined.

(** ** The program as a whole *)

Lemma timeValueOf_small (m s : Z) :
  0 <= m < 100 -> 0 <= s < 60 -> timeValueOf m s = m * 100 + s.
Proof. intros Hm Hs. unfold timeValueOf. unwrap. reflexivity. Qed.

(** The call of the display driver an iteration selects. *)
Lemma selectDisplay_value (inp : Inputs) (t : Time) :
  0 <= read_u16 inp <= 65535 -> time_inv t ->
  selectDisplay inp t
  = Some (if negb (s3 inp)
          then Display (read_u16 inp * 3300 / 65535) true 0
          else Display (minutes t * 100 + seconds t) true 1).
Proof.
  intros Hs [Hsec Hmin]. unfold selectDisplay.
  destruct (negb (s3 inp)).
  - rewrite voltageValue_sample by exact Hs. reflexivity.
  - change (timeValue t) with (timeValueOf (minutes t) (seconds t)).
    rewrite timeValueOf_small by assumption. reflexivity.
Qed.

(** X9. Whatever the buttons, the sample and the (valid) counters are, the
    number an iteration hands to displayNumber lies in [0, 9999]: at most
    3300 with the decimal point at index 0 for a voltage, at most 9959 with
    the decimal point at index 1 for a time.  So no iteration displays an
    aliased value or reaches the undefined lookup. *)
Theorem selectDisplay_in_range (inp : Inputs) (t : Time) :
  0 <= read_u16 inp <= 65535 -> time_inv t ->
  exists n decimalPosition,
    selectDisplay inp t = Some (Display n true decimalPosition) /\
    0 <= n <= 9999 /\
    (s3 inp = false -> n <= 3300 /\ decimalPosition = 0) /\
    (s3 inp = true -> n <= 9959 /\ decimalPosition = 1) /\
    forall p, run (displayNumber n true decimalPosition) p <> None.
Proof.
  intros Hs Ht. rewrite (selectDisplay_value inp t Hs Ht).
  destruct Ht as [Hsec Hmin].
  assert (Hv : 0 <= read_u16 inp * 3300 / 65535 <= 3300)
    by (Z.to_euclidean_division_equations; lia).
  assert (Hdef : forall n dp p, 0 <= n -> run (displayNumber n true dp) p <> None).
  { intros n dp p Hn.
    destruct (segmentBytes_defined n true dp (digitsOf_range n Hn))
      as (b0 & b1 & b2 & b3 & E).
    rewrite (displayNumber_run _ _ _ _ _ _ _ p E). discriminate. }
  destruct (s3 inp); cbn [negb]; eexists; eexists;
    (split; [reflexivity|]); (split; [lia|]).
  - split; [intros H; discriminate H|].
    split; [intros _; split; [lia | reflexivity]|].
    intros p; apply Hdef; lia.
  - split; [intros _; split; [lia | reflexivity]|].
    split; [intros H; discriminate H|].
    intros p; apply Hdef; lia.
Qed.

Lemma selectDisplay_in_range_witness :
  0 <= read_u16 (mkInputs true false 65535) <= 65535 /\
  time_inv (mkTime 59 99) /\
  exists n,
    selectDisplay (mkInputs true false 65535) (mkTime 59 99)
      = Some (Display n true 0) /\
    n <= 3300.
Proof.
  assert (Hs : 0 <= read_u16 (mkInputs true false 65535) <= 65535)
    by (simpl; lia).
  assert (Ht : time_inv (mkTime 59 99)) by (unfold time_inv; simpl; lia).
  split; [exact Hs|]. split; [exact Ht|].
  destruct (selectDisplay_in_range (mkInputs true false 65535) (mkTime 59 99) Hs Ht)
    as (n & dp & Hsel & _ & Hv & _ & _).
  destruct (Hv eq_refl) as [Hn ->].
  exists n. split; [exact Hsel | exact Hn].
Defined.

Lemma sleptMs_app (es1 es2 : list Event) :
  sleptMs (es1 ++ es2) = sleptMs es1 + sleptMs es2.
Proof.
  induction es1 as [|[l v|ms] es1 IH]; cbn [app sleptMs]; lia.
Qed.

Lemma stepTime_inv (st : Step) (t : Time) :
  time_inv t -> time_inv (stepTime st t).
Proof.
  intros Ht. unfold stepTime; cbv zeta.
  destruct (negb (s1 (inputs st))).
  - apply ticks_inv. unfold time_inv; simpl; lia.
  - apply ticks_inv, Ht.
Qed.

(** An iteration as the selected call of the display driver, after the
    debounce delay when S1 is pressed. *)
Lemma loopStep_run (st : Step) (t : Time) (p : Pins) :
  loopStep st t p
  = match selectDisplay (inputs st) (stepTime st t) with
    | None => None
    | Some c =>
        match perform c p with
        | None => None
        | Some (_, p', es) =>
            Some (stepTime st t, p',
                  (if negb (s1 (inputs st)) then [SleepFor 200] else []) ++ es)
        end
    end.
Proof.
  unfold loopStep, stepTime; cbv zeta.
  unfold bind, lift, ret, sleep_for.
  destruct (negb (s1 (inputs st))); cbn [app];
    destruct (selectDisplay (inputs st) _) as [c|]; try reflexivity;
    destruct (perform c p) as [[[u p'] es]|]; try reflexivity;
    cbn [app]; rewrite app_nil_r; reflexivity.
Qed.

(** One iteration, seen from the shift register. *)
Lemma loopStep_shown (st : Step) (t : Time) (r : Receiver) :
  0 <= read_u16 (inputs st) <= 65535 -> time_inv t ->
  clockPin (lines r) = false ->
  exists es ws,
    loopStep st t (lines r)
      = Some (stepTime st t, mkPins true false false, es) /\
    lines (receiveAll es r) = mkPins true false false /\
    shown (receiveAll es r) = shown r ++ ws /\
    positionsShown ws = [Some 0; Some 1; Some 2; Some 3] /\
    sleptMs es = stepSleep st.
Proof.
  intros Hs Ht Hc. rewrite loopStep_run.
  rewrite (selectDisplay_value _ _ Hs (stepTime_inv st t Ht)).
  destruct (stepTime_inv st t Ht) as [Hsec Hmin].
  set (c := if negb (s3 (inputs st)) then _ else _).
  assert (Hc' : exists n dp, c = Display n true dp /\ 0 <= n).
  { subst c. destruct (negb (s3 (inputs st))); eexists; eexists;
      (split; [reflexivity|]); [Z.to_euclidean_division_equations; lia | lia]. }
  destruct Hc' as (n & dp & -> & Hn). cbn [perform].
  destruct (displayNumber_shown n true dp r Hn Hc)
    as (es & ws & Hrun & Hl & Hp & Hsh & _ & Hms).
  unfold run in Hrun.
  destruct (displayNumber n true dp (lines r)) as [[[u p'] es']|];
    [|discriminate Hrun].
  injection Hrun as -> ->.
  exists ((if negb (s1 (inputs st)) then [SleepFor 200] else []) ++ es), ws.
  split; [reflexivity|].
  rewrite receiveAll_app, sleptMs_app, Hms. unfold stepSleep.
  destruct (negb (s1 (inputs st)));
    [rewrite receiveAll_sleep | change (receiveAll [] r) with r];
    repeat split; try assumption; reflexivity.
Qed.

Lemma iterations_shown (steps : list Step) : forall (t : Time) (r : Receiver),
  Forall (fun st => 0 <= read_u16 (inputs st) <= 65535) steps ->
  time_inv t -> clockPin (lines r) = false ->
  exists p es ws,
    iterations steps t (lines r)
      = Some (fold_left (fun t' st => stepTime st t') steps t, p, es) /\
    clockPin p = false /\
    lines (receiveAll es r) = p /\
    shown (receiveAll es r) = shown r ++ ws /\
    positionsShown ws
      = concat (map (fun _ => [Some 0; Some 1; Some 2; Some 3]) steps) /\
    sleptMs es = fold_right Z.add 0 (map stepSleep steps).
Proof.
  induction steps as [|st steps IH]; intros t r Hall Ht Hc.
  - exists (lines r), [], []. cbn. rewrite app_nil_r. repeat split. exact Hc.
  - inversion_clear Hall as [|? ? Hst Hrest].
    destruct (loopStep_shown st t r Hst Ht Hc)
      as (es1 & ws1 & Hrun1 & Hl1 & Hsh1 & Hp1 & Hms1).
    destruct (IH (stepTime st t) (receiveAll es1 r) Hrest
                (stepTime_inv st t Ht) ltac:(rewrite Hl1; reflexivity))
      as (p & es2 & ws2 & Hrun2 & Hc2 & Hl2 & Hsh2 & Hp2 & Hms2).
    rewrite Hl1 in Hrun2.
    exists p, (es1 ++ es2), (ws1 ++ ws2).
    split.
    { cbn [iterations fold_left].
      rewrite (bind_run _ _ _ _ _ _ Hrun1), Hrun2. reflexivity. }
    rewrite receiveAll_app, sleptMs_app, Hsh2, Hsh1, Hms1, Hms2.
    unfold positionsShown in *. rewrite map_app, Hp1, Hp2, <- app_assoc.
    repeat split; assumption.
Qed.

Lemma receive_initLines (r : Receiver) :
  receiveAll [SetLine LatchLine false; SetLine ClockLine false;
              SetLine DataLine false] r
  = mkReceiver initialPins (shifted r) (shown r).
Proof.
  destruct r as [[l c d] s sh]. cbn. rewrite !andb_false_r. reflexivity.
Qed.

(** X10. The program never reaches undefined behaviour: for any initial
    line levels, any button levels, any 16-bit samples and any number of
    ticks between and inside the iterations, main runs through every
    iteration; the counters satisfy the invariant afterwards; the clock
    line is left low; the shift register shows exactly four words per
    iteration, selecting positions 0, 1, 2, 3 in turn; and the program has
    slept 8 ms per iteration plus 200 ms per iteration that found S1
    pressed. *)
Theorem mainRun_safe (steps : list Step) (p : Pins) (r : Receiver) :
  Forall (fun st => 0 <= read_u16 (inputs st) <= 65535) steps ->
  lines r = p ->
  exists t p' es,
    mainRun steps p = Some (t, p', es) /\
    t = fold_left (fun t' st => stepTime st t') steps initialTime /\
    time_inv t /\
    clockPin p' = false /\
    lines (receiveAll es r) = p' /\
    positionsShown (skipn (length (shown r)) (shown (receiveAll es r)))
      = concat (map (fun _ => [Some 0; Some 1; Some 2; Some 3]) steps) /\
    sleptMs es = fold_right Z.add 0 (map stepSleep steps).
Proof.
  intros Hall <-.
  assert (H0 : time_inv initialTime) by (unfold time_inv; simpl; lia).
  pose proof (receive_initLines r) as Hinit.
  destruct (iterations_shown steps initialTime
              (mkReceiver initialPins (shifted r) (shown r)) Hall H0 eq_refl)
    as (p' & es & ws & Hrun & Hc & Hl & Hsh & Hp & Hms).
  cbn [lines shown] in Hrun, Hsh.
  exists (fold_left (fun t' st => stepTime st t') steps initialTime), p',
    ([SetLine LatchLine false; SetLine ClockLine false; SetLine DataLine false]
       ++ es).
  split.
  { unfold mainRun.
    rewrite (bind_run _ _ (lines r) initialPins tt
               [SetLine LatchLine false; SetLine ClockLine false;
                SetLine DataLine false]) by reflexivity.
    rewrite Hrun. reflexivity. }
  split; [reflexivity|].
  split.
  { clear -H0. revert H0. generalize initialTime.
    induction steps as [|st steps IH]; intros t Ht; cbn [fold_left];
      [exact Ht | apply IH, stepTime_inv, Ht]. }
  rewrite receiveAll_app, sleptMs_app, Hinit, Hsh, Hms.
  rewrite skipn_app, skipn_all, Nat.sub_diag.
  cbn [skipn app sleptMs].
  repeat split; assumption.
Qed.

Lemma mainRun_safe_witness :
  Forall (fun st => 0 <= read_u16 (inputs st) <= 65535)
    [mkStep 61 0 (mkInputs true true 0); mkStep 5 20 (mkInputs false false 40000)] /\
  lines (mkReceiver (mkPins true true true) 0 []) = mkPins true true true /\
  exists t p' es,
    mainRun [mkStep 61 0 (mkInputs true true 0);
             mkStep 5 20 (mkInputs false false 40000)] (mkPins true true true)
      = Some (t, p', es) /\
    t = mkTime 20 0 /\ sleptMs es = 216.
Proof.
  assert (Hall : Forall (fun st => 0 <= read_u16 (inputs st) <= 65535)
            [mkStep 61 0 (mkInputs true true 0);
             mkStep 5 20 (mkInputs false false 40000)])
    by (repeat constructor; simpl; lia).
  split; [exact Hall|]. split; [reflexivity|].
  destruct (mainRun_safe _ (mkPins true true true)
              (mkReceiver (mkPins true true true) 0 []) Hall eq_refl)
    as (t & p' & es & Hrun & Ht & _ & _ & _ & _ & Hms).
  exists t, p', es. split; [exact Hrun|]. split; [exact Ht | exact Hms].
Defined.

(** X11. The two counters are loaded one after the other.  Whatever states
    the two loads see, the value computed stays in [0, 9959]; but when the
    callback runs between them at seconds = 59 the value is neither the
    time before the tick nor the time after it: 59 seconds early when
    minutes is loaded first, 59 seconds late (modulo the rollover of
    minutes) when seconds is loaded first. *)
Theorem timeValueOf_torn (t : Time) :
  time_inv t ->
  (forall t', time_inv t' ->
     0 <= timeValueOf (minutes t) (seconds t') <= 9959) /\
  (seconds t = 59 ->
     timeValueOf (minutes t) (seconds (updateTime t)) = timeValue t - 59 /\
     timeValueOf (minutes t) (seconds (updateTime t))
       <> timeValue (updateTime t) /\
     timeValueOf (minutes (updateTime t)) (seconds t)
       = timeValue (updateTime t) + 59 /\
     timeValueOf (minutes (updateTime t)) (seconds t) <> timeValue t).
Proof.
  intros Ht. pose proof Ht as [Hs Hm]. split.
  - intros t' [Hs' Hm']. rewrite timeValueOf_small by assumption. lia.
  - intros H59.
    pose proof (updateTime_inv t Ht) as [Hs1 Hm1].
    change (timeValue t) with (timeValueOf (minutes t) (seconds t)).
    change (timeValue (updateTime t))
      with (timeValueOf (minutes (updateTime t)) (seconds (updateTime t))).
    rewrite !timeValueOf_small by assumption.
    rewrite (updateTime_cases t Ht) in *.
    destruct (Z.ltb_spec (seconds t) 59); [lia|].
    destruct (Z.ltb_spec (minutes t) 99); cbn [seconds minutes] in *;
      repeat split; lia.
Qed.

Lemma timeValueOf_torn_witness :
  time_inv (mkTime 59 12) /\ seconds (mkTime 59 12) = 59 /\
  timeValue (mkTime 59 12) = 1259 /\
  timeValue (updateTime (mkTime 59 12)) = 1300 /\
  timeValueOf (minutes (mkTime 59 12)) (seconds (updateTime (mkTime 59 12)))
    = 1259 - 59.
Proof.
  assert (Ht : time_inv (mkTime 59 12)) by (unfold time_inv; simpl; lia).
  split; [exact Ht|]. split; [reflexivity|].
  split; [reflexivity|]. split; [reflexivity|].
  exact (proj1 (proj2 (timeValueOf_torn (mkTime 59 12) Ht) eq_refl)).
Defined.

(** X12. The callback is attached with a period of 10 ms, not the second
    its comment names: in [ms] milliseconds the count minutes*60 + seconds
    advances by ms/10 modulo 6000, so one real second moves the clock by
    one minute and forty seconds and the whole range 00:00 to 99:59 is run
    through every 60 real seconds. *)
Theorem ticksIn_elapsed (ms : Z) (t : Time) :
  time_inv t -> 0 <= ms ->
  minutes (ticks (ticksIn ms) t) * 60 + seconds (ticks (ticksIn ms) t)
    = (minutes t * 60 + seconds t + ms / 10) mod 6000 /\
  ticks (ticksIn (ms + 60000)) t = ticks (ticksIn ms) t /\
  ticks (ticksIn 1000) initialTime = mkTime 40 1.
Proof.
  intros Ht Hms.
  assert (Hn : forall x, 0 <= x -> Z.of_nat (ticksIn x) = x / 10).
  { intros x Hx. unfold ticksIn, tickIntervalMs. apply Z2Nat.id.
    apply Z.div_pos; lia. }
  split; [rewrite ticks_elapsed, Hn by assumption; reflexivity|].
  split; [|rewrite ticks_closed_form; reflexivity].
  rewrite (ticks_valid_form _ t Ht), (ticks_valid_form (ticksIn ms) t Ht).
  rewrite !Hn by lia.
  replace ((minutes t * 60 + seconds t + (ms + 60000) / 10) mod 6000)
    with ((minutes t * 60 + seconds t + ms / 10) mod 6000)
    by (Z.to_euclidean_division_equations; lia).
  reflexivity.
Qed.

Lemma ticksIn_elapsed_witness :
  time_inv (mkTime 30 5) /\ 0 <= 2500 /\
  ticks (ticksIn 2500) (mkTime 30 5) = mkTime 40 9.
Proof.
  assert (Ht : time_inv (mkTime 30 5)) by (unfold time_inv; simpl; lia).
  assert (Hms : 0 <= 2500) by lia.
  split; [exact Ht|]. split; [exact Hms|].
  pose proof (proj1 (ticksIn_elapsed 2500 (mkTime 30 5) Ht Hms)) as H.
  apply (time_of_elapsed _ _ (ticks_inv _ _ Ht)) in H. exact H.
Defined.
